(** * Orchestration core of the security-agent console (frontend/src/App.tsx)

    The component [App] keeps six pieces of React state and five asynchronous
    operations that talk to the backend through axios.  This development
    embeds

    - the values that travel over the wire and sit in the state
      (TypeScript interfaces are erased at run time, so they are plain
      JavaScript values),
    - the asynchronous functions, written in a small task language with
      [Do], [Await], [Fork], [Throw] and try/catch/finally,
    - the event loop that runs click handlers and resumes suspended
      functions when a response arrives,
    - the render functions, as functions from the state to the element
      tree they return,

    and then states and proves the properties of the orchestration core
    and of the views. *)

From Stdlib Require Import List String ZArith Bool PeanoNat.
Import ListNotations.
Local Open Scope string_scope.
Local Open Scope list_scope.

Set Implicit Arguments.

(* ================================================================== *)
(** ** JavaScript values *)
(* ================================================================== *)

Module JS.

(** A value as [JSON.parse] (axios' default response transform) yields it,
    plus [undefined], which property reads produce.  Numbers are kept as
    integers: the program never computes with a number, it only tests one
    for truthiness or prints it. *)
#[warnings="-register-all"]
Inductive value : Type :=
| VUndefined
| VNull
| VBool (b : bool)
| VNum (n : Z)
| VStr (s : string)
| VArr (items : list value)
| VObj (fields : list (string * value)).

(** JavaScript truthiness, as used by [a || b] and [if (a)]. *)
Definition truthy (v : value) : bool :=
  match v with
  | VUndefined | VNull => false
  | VBool b => b
  | VNum n => negb (Z.eqb n 0)
  | VStr s => negb (String.eqb s "")
  | VArr _ | VObj _ => true
  end.

(** [a || b] *)
Definition or_else (a b : value) : value := if truthy a then a else b.

(** Own property of an object literal; an absent key reads as
    [undefined]. *)
Fixpoint lookup (key : string) (fields : list (string * value)) : value :=
  match fields with
  | [] => VUndefined
  | (k, v) :: rest => if String.eqb k key then v else lookup key rest
  end.

(** The property read [v.key].  [None] is the [TypeError] that reading a
    property of [null] or [undefined] throws.  The program reads only the
    keys [techniques], [attack_plans], [safety_config], [results],
    [vulnerabilities_found], [test_summary], [risk_level] and [length];
    of these only [length] exists on arrays and strings. *)
Definition get (v : value) (key : string) : option value :=
  match v with
  | VUndefined | VNull => None
  | VObj fields => Some (lookup key fields)
  | VArr items =>
      Some (if String.eqb key "length"
            then VNum (Z.of_nat (List.length items)) else VUndefined)
  | VStr s =>
      Some (if String.eqb key "length"
            then VNum (Z.of_nat (String.length s)) else VUndefined)
  | VBool _ | VNum _ => Some VUndefined
  end.

(** Whether the object has an own property [key]. *)
Definition hasKey (key : string) (fields : list (string * value)) : bool :=
  existsb (fun field => String.eqb (fst field) key) fields.

(** Whether converting [v] to a string returns: in a template literal,
    in [join], in ['' + v] and in [new Date(v)].  No property of a
    parsed JSON value is a function, so an object can only be converted
    by [Object.prototype.toString]; an own property [toString] hides
    that method, and then the conversion throws a [TypeError].  An array
    is converted by joining its elements. *)
Fixpoint convertible (v : value) : bool :=
  match v with
  | VObj fields => negb (hasKey "toString" fields)
  | VArr items => forallb convertible items
  | _ => true
  end.

End JS.
Import JS.

(* ================================================================== *)
(** ** The state held by [App] and the effects of its code *)
(* ================================================================== *)

(** The six [useState] cells, with the initial values passed to
    [useState]. *)
Record State : Type := mkState {
  activeTab    : string;
  techniques   : value;
  attackPlans  : value;
  safetyConfig : value;
  loading      : bool;
  error        : option string
}.

Definition initialState : State :=
  {| activeTab := "dashboard";
     techniques := VArr [];
     attackPlans := VArr [];
     safetyConfig := VNull;
     loading := false;
     error := None |}.

Definition API_BASE_URL : string := "http://localhost:5000".

(** An axios call: the full URL and, for a POST, the JSON body. *)
Inductive request : Type :=
| GET (url : string)
| POST (url : string) (body : value).

(** How the promise of a request settles: fulfilled with [response.data],
    or rejected (network failure, non-2xx status). *)
Inductive outcome : Type :=
| Fulfilled (data : value)
| Rejected.

(** A template literal: its constant pieces and its [${...}] holes. *)
Inductive chunk : Type :=
| Lit (s : string)
| Hole (v : value).

(** What a synchronous stretch of code can do.  [Dispatch] is the call
    of axios with a request; it is emitted by [Await] below, never by
    [Do]. *)
Inductive effect : Type :=
| SetActiveTab (t : string)
| SetTechniques (v : value)
| SetAttackPlans (v : value)
| SetSafetyConfig (v : value)
| SetLoading (b : bool)
| SetError (e : option string)
| Alert (text : list chunk)
| ConsoleError
| Dispatch (r : request).

(** A state setter replaces its cell; everything else leaves the state
    alone. *)
Definition apply (s : State) (e : effect) : State :=
  match e with
  | SetActiveTab t =>
      mkState t (techniques s) (attackPlans s) (safetyConfig s) (loading s) (error s)
  | SetTechniques v =>
      mkState (activeTab s) v (attackPlans s) (safetyConfig s) (loading s) (error s)
  | SetAttackPlans v =>
      mkState (activeTab s) (techniques s) v (safetyConfig s) (loading s) (error s)
  | SetSafetyConfig v =>
      mkState (activeTab s) (techniques s) (attackPlans s) v (loading s) (error s)
  | SetLoading b =>
      mkState (activeTab s) (techniques s) (attackPlans s) (safetyConfig s) b (error s)
  | SetError e =>
      mkState (activeTab s) (techniques s) (attackPlans s) (safetyConfig s) (loading s) e
  | Alert _ | ConsoleError | Dispatch _ => s
  end.

Definition applyAll (s : State) (es : list effect) : State :=
  fold_left apply es s.

(* ================================================================== *)
(** ** Asynchronous functions as tasks *)
(* ================================================================== *)

(** The body of an [async] function.
    - [Ret]: the function returns.
    - [Throw]: an exception propagates (to the nearest [catch], or out of
      the function, where it only rejects the function's own promise).
    - [Do e k]: perform [e], continue with [k].
    - [Await rs k]: dispatch the requests [rs], suspend, and continue with
      [k] applied to how they settled.
    - [Fork child k]: call the async function [child] and drop its
      promise: [child] runs up to its first [await], then [k] runs. *)
Inductive task : Type :=
| Ret
| Throw
| Do (e : effect) (k : task)
| Await (rs : list request) (k : list outcome -> task)
| Fork (child : task) (k : task).

(** [try { body } catch { handler }] *)
Fixpoint try_catch (body handler : task) : task :=
  match body with
  | Ret => Ret
  | Throw => handler
  | Do e k => Do e (try_catch k handler)
  | Await rs k => Await rs (fun outs => try_catch (k outs) handler)
  | Fork child k => Fork child (try_catch k handler)
  end.

(** [t; k]: [k] runs when [t] returns normally. *)
Fixpoint and_then (t k : task) : task :=
  match t with
  | Ret => k
  | Throw => Throw
  | Do e t' => Do e (and_then t' k)
  | Await rs t' => Await rs (fun outs => and_then (t' outs) k)
  | Fork child t' => Fork child (and_then t' k)
  end.

(** [try { body } finally { fin }]: [fin] runs on both exits, and an
    exception keeps propagating after it. *)
Fixpoint try_finally (body fin : task) : task :=
  match body with
  | Ret => fin
  | Throw => and_then fin Throw
  | Do e k => Do e (try_finally k fin)
  | Await rs k => Await rs (fun outs => try_finally (k outs) fin)
  | Fork child k => Fork child (try_finally k fin)
  end.

Definition try_catch_finally (body handler fin : task) : task :=
  try_finally (try_catch body handler) fin.

(** [const x = await r]: a rejected promise throws at the [await]. *)
Definition await (r : request) (k : value -> task) : task :=
  Await [r] (fun outs =>
    match outs with
    | [Fulfilled data] => k data
    | _ => Throw
    end).

(** [const [x, y, z] = await Promise.all([r1, r2, r3])]: fulfilled when
    all three are, rejected as soon as one is. *)
Definition await_all3 (r1 r2 r3 : request) (k : value -> value -> value -> task) : task :=
  Await [r1; r2; r3] (fun outs =>
    match outs with
    | [Fulfilled d1; Fulfilled d2; Fulfilled d3] => k d1 d2 d3
    | _ => Throw
    end).

(** [const x = v.key], throwing when [v] is [null] or [undefined]. *)
Definition read (v : value) (key : string) (k : value -> task) : task :=
  match get v key with
  | Some x => k x
  | None => Throw
  end.

(** [${v}] in a template literal: [v] is converted to a string, which
    throws for some values; the text itself is left as a hole. *)
Definition interpolate (v : value) (k : chunk -> task) : task :=
  if convertible v then k (Hole v) else Throw.

Notation "'let!' x ':=' e 'in' k" := (e (fun x => k))
  (at level 10, x name, e at level 100, k at level 200, only parsing).
Notation "e ';;' k" := (Do e k) (at level 61, right associativity).

(* ================================================================== *)
(** ** The five operations of [App] *)
(* ================================================================== *)

Definition loadDashboardData : task :=
  SetLoading true ;;
  try_catch_finally
    (await_all3
       (GET (API_BASE_URL ++ "/api/knowledge/techniques"))
       (GET (API_BASE_URL ++ "/api/attack/plans"))
       (GET (API_BASE_URL ++ "/api/safety/config"))
       (fun techniquesRes attacksRes safetyRes =>
          let! t := read techniquesRes "techniques" in
          SetTechniques (or_else t (VArr [])) ;;
          let! a := read attacksRes "attack_plans" in
          SetAttackPlans (or_else a (VArr [])) ;;
          let! c := read safetyRes "safety_config" in
          SetSafetyConfig (or_else c VNull) ;;
          Ret))
    (SetError (Some "Failed to load dashboard data") ;; ConsoleError ;; Ret)
    (SetLoading false ;; Ret).

Definition learnFromUrl (url : string) : task :=
  SetLoading true ;;
  try_catch_finally
    (let! response :=
       await (POST (API_BASE_URL ++ "/api/knowledge/learn/url")
                   (VObj [("url", VStr url)])) in
     let! learned := read response "techniques" in
     let! n := read learned "length" in
     let! shown := interpolate n in
     Alert [Lit "Successfully learned "; shown; Lit " new techniques!"] ;;
     Fork loadDashboardData Ret)
    (SetError (Some "Failed to learn from URL") ;; ConsoleError ;; Ret)
    (SetLoading false ;; Ret).

Definition createAttackPlan (target : value) (objectives : list string) : task :=
  SetLoading true ;;
  try_catch_finally
    (let! response :=
       await (POST (API_BASE_URL ++ "/api/attack/plan")
                   (VObj [("target", target);
                          ("objectives", VArr (map VStr objectives))])) in
     Alert [Lit "Attack plan created successfully!"] ;;
     Fork loadDashboardData Ret)
    (SetError (Some "Failed to create attack plan") ;; ConsoleError ;; Ret)
    (SetLoading false ;; Ret).

(** The escape [\n] of a template literal. *)
Definition newline : string := String (Ascii.ascii_of_nat 10) EmptyString.

(** [testType] is an optional parameter with default ['basic']. *)
Definition testChatbot (url : string) (testType : option string) : task :=
  let testType := match testType with Some t => t | None => "basic" end in
  SetLoading true ;;
  try_catch_finally
    (let! response :=
       await (POST (API_BASE_URL ++ "/api/attack/chatbot/test")
                   (VObj [("url", VStr url); ("test_type", VStr testType)])) in
     let! results := read response "results" in
     let! found := read results "vulnerabilities_found" in
     let! count := read found "length" in
     let! shownCount := interpolate count in
     let! summary := read results "test_summary" in
     let! risk := read summary "risk_level" in
     let! shownRisk := interpolate risk in
     Alert [Lit "Chatbot test completed!"; Lit newline;
            Lit "Vulnerabilities found: "; shownCount; Lit newline;
            Lit "Risk level: "; shownRisk] ;;
     Ret)
    (SetError (Some "Failed to test chatbot") ;; ConsoleError ;; Ret)
    (SetLoading false ;; Ret).

Definition emergencyStop : task :=
  try_catch
    (let! response :=
       await (POST (API_BASE_URL ++ "/api/safety/emergency-stop")
                   (VObj [("reason", VStr "Manual emergency stop from UI")])) in
     Alert [Lit "Emergency stop activated!"] ;;
     Ret)
    (SetError (Some "Failed to activate emergency stop") ;; ConsoleError ;; Ret).

(* ================================================================== *)
(** ** The user interface: what each control runs *)
(* ================================================================== *)

(** The four navigation buttons. *)
Inductive Tab : Type := dashboard | knowledge | attack | safety.

Definition tabName (t : Tab) : string :=
  match t with
  | dashboard => "dashboard"
  | knowledge => "knowledge"
  | attack => "attack"
  | safety => "safety"
  end.

(** What [prompt] returns: the text, or [null] when cancelled. *)
Definition promptValue (answer : option string) : value :=
  match answer with
  | Some s => VStr s
  | None => VNull
  end.

Definition egnyteUrl : string :=
  "https://www.egnyte.com/blog/post/ai-chatbot-security-understanding-key-risks-and-testing-best-practices".

(** Everything that can start code in [App]: the mount effect and the
    [onClick] handlers, each with what the user typed. *)
Inductive control : Type :=
| Mount
| NavButton (t : Tab)
| LearnFromUrlButton (answer : option string)
| LearnFromEgnyteButton
| CreateAttackPlanButton (name url : option string)
| TestChatbotButton (inputValue : string)
| EmergencyStopButton.

Definition handler (c : control) : task :=
  match c with
  | Mount => Fork loadDashboardData Ret
  | NavButton t => SetActiveTab (tabName t) ;; Ret
  | LearnFromUrlButton answer =>
      match answer with
      | Some url =>
          if truthy (VStr url) then Fork (learnFromUrl url) Ret else Ret
      | None => Ret
      end
  | LearnFromEgnyteButton => Fork (learnFromUrl egnyteUrl) Ret
  | CreateAttackPlanButton name url =>
      let target :=
        VObj [("name", or_else (promptValue name) (VStr ""));
              ("url", or_else (promptValue url) (VStr ""));
              ("type", VStr "web_application")] in
      let objectives := ["Identify vulnerabilities"; "Test security controls"] in
      Fork (createAttackPlan target objectives) Ret
  | TestChatbotButton inputValue =>
      if truthy (VStr inputValue)
      then Fork (testChatbot inputValue None) Ret else Ret
  | EmergencyStopButton => Fork emergencyStop Ret
  end.

(* ================================================================== *)
(** ** The event loop *)
(* ================================================================== *)

(** A suspended async function: the requests it waits for and the rest of
    its body. *)
Record pending : Type := mkPending {
  awaited : list request;
  resume  : list outcome -> task
}.

(** Run a task until it returns or suspends: the effects performed, in
    order, and the functions left suspended.  An exception that leaves
    the task rejects a promise nobody looks at. *)
Fixpoint run_sync (t : task) : list effect * list pending :=
  match t with
  | Ret | Throw => ([], [])
  | Do e k => (e :: fst (run_sync k), snd (run_sync k))
  | Await rs k => (map Dispatch rs, [mkPending rs k])
  | Fork child k =>
      (fst (run_sync child) ++ fst (run_sync k),
       snd (run_sync child) ++ snd (run_sync k))
  end.

(** The page: the React state, the suspended functions, and the log of
    everything done so far. *)
Record Page : Type := mkPage {
  store    : State;
  inflight : list pending;
  history  : list effect
}.

Definition initialPage : Page :=
  {| store := initialState; inflight := []; history := [] |}.

(** What happens next: the user operates a control, or the requests of
    the [n]-th suspended function settle. *)
Inductive input : Type :=
| User (c : control)
| Settle (n : nat) (outs : list outcome).

Definition launch (p : Page) (t : task) : Page :=
  {| store := applyAll (store p) (fst (run_sync t));
     inflight := inflight p ++ snd (run_sync t);
     history := history p ++ fst (run_sync t) |}.

Fixpoint remove_nth {A : Type} (n : nat) (l : list A) : list A :=
  match l, n with
  | [], _ => []
  | _ :: rest, O => rest
  | x :: rest, S n' => x :: remove_nth n' rest
  end.

(** One turn of the event loop.  A settlement names a suspended function
    and brings one outcome per request it awaits; anything else is not a
    settlement the browser can deliver and leaves the page alone. *)
Definition step (p : Page) (i : input) : Page :=
  match i with
  | User c => launch p (handler c)
  | Settle n outs =>
      match nth_error (inflight p) n with
      | Some w =>
          if Nat.eqb (List.length outs) (List.length (awaited w))
          then launch (mkPage (store p) (remove_nth n (inflight p)) (history p))
                      (resume w outs)
          else p
      | None => p
      end
  end.

Definition steps (p : Page) (ins : list input) : Page := fold_left step ins p.

(* ================================================================== *)
(** ** Vocabulary for the properties *)
(* ================================================================== *)

(** The five operations of the orchestration core, with their
    arguments.  [Refresh] is [loadDashboardData]. *)
Inductive operation : Type :=
| Refresh
| LearnFromUrl (url : string)
| CreateAttackPlan (target : value) (objectives : list string)
| TestChatbot (url : string) (testType : option string)
| EmergencyStop.

Definition body (o : operation) : task :=
  match o with
  | Refresh => loadDashboardData
  | LearnFromUrl url => learnFromUrl url
  | CreateAttackPlan target objectives => createAttackPlan target objectives
  | TestChatbot url testType => testChatbot url testType
  | EmergencyStop => emergencyStop
  end.

(** How many requests the operation awaits at once. *)
Definition arity (o : operation) : nat :=
  match o with
  | Refresh => 3
  | _ => 1
  end.

(** The text each [catch] block passes to [setError]. *)
Definition failureMessage (o : operation) : string :=
  match o with
  | Refresh => "Failed to load dashboard data"
  | LearnFromUrl _ => "Failed to learn from URL"
  | CreateAttackPlan _ _ => "Failed to create attack plan"
  | TestChatbot _ _ => "Failed to test chatbot"
  | EmergencyStop => "Failed to activate emergency stop"
  end.

(** The three fetches of one refresh. *)
Definition refreshRequests : list request :=
  [GET (API_BASE_URL ++ "/api/knowledge/techniques");
   GET (API_BASE_URL ++ "/api/attack/plans");
   GET (API_BASE_URL ++ "/api/safety/config")].

(** The requests handed to axios, in order. *)
Fixpoint dispatched (es : list effect) : list request :=
  match es with
  | [] => []
  | Dispatch r :: rest => r :: dispatched rest
  | _ :: rest => dispatched rest
  end.

Definition writesSlice (e : effect) : bool :=
  match e with
  | SetTechniques _ | SetAttackPlans _ | SetSafetyConfig _ => true
  | _ => false
  end.

Definition setsError (e : effect) : bool :=
  match e with
  | SetError _ => true
  | _ => false
  end.

Definition clearsError (e : effect) : bool :=
  match e with
  | SetError None => true
  | _ => false
  end.

Definition touchesLoading (e : effect) : bool :=
  match e with
  | SetLoading _ => true
  | _ => false
  end.

Definition keepsError (e : effect) : bool := negb (clearsError e).

Definition isFetch (e : effect) : bool :=
  match e with
  | Dispatch (GET _) => true
  | _ => false
  end.

(** Neither a write to a data slice nor a fetch of one. *)
Definition leavesData (e : effect) : bool :=
  negb (writesSlice e) && negb (isFetch e).

(** The write operations: those that change what the backend stores. *)
Definition isWrite (o : operation) : bool :=
  match o with
  | LearnFromUrl _ | CreateAttackPlan _ _ => true
  | _ => false
  end.

(** The data slices of the state. *)
Definition slices (s : State) : value * value * value :=
  (techniques s, attackPlans s, safetyConfig s).

(** [App]'s render shows the view [t] when [activeTab === tabName t]. *)
Definition visible (s : State) (t : Tab) : bool :=
  String.eqb (activeTab s) (tabName t).

(** Start an operation on a page, and settle the requests it has just
    issued (they are the last entry of [inflight]). *)
Definition start (p : Page) (o : operation) : Page := launch p (body o).

Definition settle (p0 p : Page) (outs : list outcome) : Page :=
  step p (Settle (List.length (inflight p0)) outs).

(** One refresh run to completion on a quiet page. *)
Definition refresh (s : State) (outs : list outcome) : State :=
  store (step (launch (mkPage s [] []) loadDashboardData) (Settle 0 outs)).

(** Three fulfilled fetches with the bodies the backend documents, for
    an empty knowledge base. *)
Definition goodRefresh : list outcome :=
  [Fulfilled (VObj [("techniques", VArr [])]);
   Fulfilled (VObj [("attack_plans", VArr [])]);
   Fulfilled (VObj [("safety_config", VObj [])])].

(** Every effect the task can perform, on every path and for every way
    its requests settle, passes the test [ok]. *)
Inductive emits_only (ok : effect -> bool) : task -> Prop :=
| eo_ret : emits_only ok Ret
| eo_throw : emits_only ok Throw
| eo_do e k : ok e = true -> emits_only ok k -> emits_only ok (Do e k)
| eo_await rs k :
    forallb ok (map Dispatch rs) = true ->
    (forall outs, emits_only ok (k outs)) ->
    emits_only ok (Await rs k)
| eo_fork child k :
    emits_only ok child -> emits_only ok k -> emits_only ok (Fork child k).

(** A page all of whose past and future effects pass [ok]. *)
Definition page_ok (ok : effect -> bool) (p : Page) : Prop :=
  Forall (fun e => ok e = true) (history p) /\
  Forall (fun w => forall outs, emits_only ok (resume w outs)) (inflight p).

(* ================================================================== *)
(** ** The views *)
(* ================================================================== *)

(** The render functions of [App] build React elements from the state.
    They are embedded as functions to the element tree they return, or
    to [None] when evaluating the JSX throws a [TypeError].  Strings
    are sequences of code units below 256. *)

Module View.

(** [v == null]: [null] or [undefined]. *)
Definition nullish (v : value) : bool :=
  match v with
  | VUndefined | VNull => true
  | _ => false
  end.

(** [v?.key] *)
Definition optGet (v : value) (key : string) : value :=
  match get v key with
  | Some x => x
  | None => VUndefined
  end.

(** [String.prototype.toLowerCase] on code units below 256: the letters
    A-Z and the accented capitals U+00C0-U+00DE (the sign U+00D7 apart)
    move up by 32. *)
Definition lowerChar (c : Ascii.ascii) : Ascii.ascii :=
  let n := Ascii.nat_of_ascii c in
  if ((65 <=? n) && (n <=? 90)
      || (192 <=? n) && (n <=? 222) && negb (n =? 215))%nat
  then Ascii.ascii_of_nat (n + 32)
  else c.

Fixpoint toLowerCase (s : string) : string :=
  match s with
  | EmptyString => EmptyString
  | String c rest => String (lowerChar c) (toLowerCase rest)
  end.

(** [v?.toLowerCase()]: [undefined] for [null] and [undefined], the
    lowered string for a string, and a [TypeError] for anything else,
    which has no such method. *)
Definition optToLowerCase (v : value) : option value :=
  match v with
  | VUndefined | VNull => Some VUndefined
  | VStr s => Some (VStr (toLowerCase s))
  | _ => None
  end.

(** One element of [Array.prototype.join]: [null] and [undefined] give
    the empty string, a string itself; the text of another value is
    left as a hole ([join] throws when one cannot be converted, see
    [objectivesText]). *)
Definition joinPiece (v : value) : chunk :=
  match v with
  | VUndefined | VNull => Lit ""
  | VStr s => Lit s
  | _ => Hole v
  end.

Fixpoint joinChunks (sep : string) (items : list value) : list chunk :=
  match items with
  | [] => []
  | [x] => [joinPiece x]
  | x :: rest => joinPiece x :: Lit sep :: joinChunks sep rest
  end.

(** The string a list of chunks denotes, when it has no hole. *)
Fixpoint flatten (cs : list chunk) : option string :=
  match cs with
  | [] => Some ""
  | Lit s :: rest =>
      match flatten rest with
      | Some t => Some (s ++ t)%string
      | None => None
      end
  | Hole _ :: _ => None
  end.

(** [v.slice(from, to)] for [0 <= from <= to]: arrays and strings have
    the method, nothing else has. *)
Definition slice (v : value) (from to : nat) : option value :=
  match v with
  | VArr items => Some (VArr (firstn (to - from) (skipn from items)))
  | VStr s => Some (VStr (substring from (to - from) s))
  | _ => None
  end.

(** The [onClick] handlers a view can offer: the navigation to a tab,
    and the handlers that [handler] above runs for [LearnFromUrlButton],
    [LearnFromEgnyteButton], [CreateAttackPlanButton],
    [TestChatbotButton] and [EmergencyStopButton]. *)
Inductive button : Type :=
| NavTo (t : Tab)
| LearnFromUrlPrompt
| LearnFromEgnyte
| CreateAttackPlanPrompts
| TestChatbotInput
| EmergencyStopCall.

Inductive attr : Type :=
| Key (k : value)
| ClassName (c : list chunk)
| OnClick (b : button)
| Size (n : Z)
| Plain (name text : string).

(** A React child: an element, literal JSX text, the value of a
    [{expression}], a computed string, a date printed by
    [toLocaleString] (its text is not interpreted: it depends on the
    locale and the time zone of the browser), or the array a [map] returns. *)
#[warnings="-register-all"]
Inductive node : Type :=
| Elem (tag : string) (attrs : list attr) (children : list node)
| Text (s : string)
| Expr (v : value)
| Str (cs : list chunk)
| LocaleDate (v : value)
| Items (l : list node).

(** [<tag className="c">children</tag>] *)
Definition el (tag c : string) (children : list node) : node :=
  Elem tag [ClassName [Lit c]] children.

(** A property read in a render function. *)
Definition oread {A : Type} (v : value) (key : string) (k : value -> option A) : option A :=
  match get v key with
  | Some x => k x
  | None => None
  end.

Definition obind {A B : Type} (x : option A) (k : A -> option B) : option B :=
  match x with
  | Some a => k a
  | None => None
  end.

Fixpoint mapM {A B : Type} (f : A -> option B) (l : list A) : option (list B) :=
  match l with
  | [] => Some []
  | x :: rest =>
      match f x with
      | Some y =>
          match mapM f rest with
          | Some ys => Some (y :: ys)
          | None => None
          end
      | None => None
      end
  end.

(** [(x, index) => ...] over a list, counting from [i]. *)
Fixpoint mapiM {A B : Type} (f : A -> nat -> option B) (i : nat) (l : list A)
  : option (list B) :=
  match l with
  | [] => Some []
  | x :: rest =>
      match f x i with
      | Some y =>
          match mapiM f (S i) rest with
          | Some ys => Some (y :: ys)
          | None => None
          end
      | None => None
      end
  end.

(** [v.map(f)]: only an array has the method. *)
Definition arrayMap (v : value) (f : value -> option node) : option node :=
  match v with
  | VArr items => option_map Items (mapM f items)
  | _ => None
  end.

Definition arrayMapi (v : value) (f : value -> nat -> option node) : option node :=
  match v with
  | VArr items => option_map Items (mapiM f 0 items)
  | _ => None
  end.

(** [${v}] in the template literal of a class name. *)
Definition ointerpolate {A : Type} (v : value) (k : chunk -> option A) : option A :=
  if convertible v then k (Hole v) else None.

(** [key={v}]: creating the element converts the key by ['' + v]
    (a key that is [undefined] is dropped without conversion). *)
Definition okey {A : Type} (v : value) (k : attr -> option A) : option A :=
  if convertible v then k (Key v) else None.

(** [new Date(v).toLocaleString()]: the constructor converts an object
    or an array to a primitive first. *)
Definition odate {A : Type} (v : value) (k : node -> option A) : option A :=
  if convertible v then k (LocaleDate v) else None.

(** The [error] cell as the JavaScript value it is. *)
Definition errorValue (s : State) : value :=
  match error s with
  | Some e => VStr e
  | None => VNull
  end.

(** *** renderDashboard *)

Definition techniqueItem (technique : value) : option node :=
  let! id := oread technique "id" in
  let! key := okey id in
  let! name := oread technique "name" in
  let! description := oread technique "description" in
  let! category := oread technique "category" in
  let! badge := ointerpolate category in
  Some
    (Elem "div" [key; ClassName [Lit "technique-item"]]
       [el "div" "technique-info"
          [Elem "h4" [] [Expr name];
           Elem "p" [] [Expr description];
           Elem "span" [ClassName [Lit "category-badge "; badge]]
             [Expr category]]]).

Definition renderDashboard (s : State) : option node :=
  let! techniquesLength := oread (techniques s) "length" in
  let! plansLength := oread (attackPlans s) "length" in
  let status :=
    if truthy (optGet (safetyConfig s) "emergency_stop_enabled")
    then "Active" else "Inactive" in
  let! recent := obind (slice (techniques s) 0 5) in
  let! items := obind (arrayMap recent techniqueItem) in
  Some
    (el "div" "dashboard"
       [el "div" "stats-grid"
          [el "div" "stat-card"
             [el "Database" "stat-icon" [];
              el "div" "stat-content"
                [Elem "h3" [] [Text "Techniques"];
                 el "p" "stat-number" [Expr techniquesLength]]];
           el "div" "stat-card"
             [el "Target" "stat-icon" [];
              el "div" "stat-content"
                [Elem "h3" [] [Text "Attack Plans"];
                 el "p" "stat-number" [Expr plansLength]]];
           el "div" "stat-card"
             [el "Shield" "stat-icon" [];
              el "div" "stat-content"
                [Elem "h3" [] [Text "Safety Status"];
                 el "p" "stat-status" [Expr (VStr status)]]];
           el "div" "stat-card"
             [el "Activity" "stat-icon" [];
              el "div" "stat-content"
                [Elem "h3" [] [Text "System Status"];
                 el "p" "stat-status" [Text "Operational"]]]];
        el "div" "recent-activity"
          [Elem "h3" [] [Text "Recent Techniques"];
           el "div" "technique-list" [items]]]).

(** *** renderKnowledgeBase *)

Definition tagSpan (tag : value) (index : nat) : option node :=
  Some (Elem "span" [Key (VNum (Z.of_nat index)); ClassName [Lit "tag"]]
          [Expr tag]).

(** [{technique.tags && (<div className="tags">...</div>)}] *)
Definition tagsBlock (tags : value) : option node :=
  if truthy tags
  then
    let! spans := obind (arrayMapi tags tagSpan) in
    Some (el "div" "tags" [spans])
  else Some (Expr tags).

Definition techniqueCard (technique : value) : option node :=
  let! id := oread technique "id" in
  let! key := okey id in
  let! name := oread technique "name" in
  let! severity := oread technique "severity" in
  let! lowered := obind (optToLowerCase severity) in
  let! description := oread technique "description" in
  let! category := oread technique "category" in
  let! tags := oread technique "tags" in
  let! tagsNode := obind (tagsBlock tags) in
  Some
    (Elem "div" [key; ClassName [Lit "technique-card"]]
       [el "div" "technique-header"
          [Elem "h3" [] [Expr name];
           Elem "span" [ClassName [Lit "severity-badge "; Hole lowered]]
             [Expr (or_else severity (VStr "Unknown"))]];
        el "p" "technique-description" [Expr description];
        el "div" "technique-meta"
          [el "span" "category" [Expr category];
           tagsNode]]).

Definition renderKnowledgeBase (s : State) : option node :=
  let! cards := obind (arrayMap (techniques s) techniqueCard) in
  Some
    (el "div" "knowledge-base"
       [el "div" "section-header"
          [Elem "h2" [] [Text "Knowledge Base"];
           el "div" "actions"
             [Elem "button" [OnClick LearnFromUrlPrompt; ClassName [Lit "btn-primary"]]
                [Text "Learn from URL"];
              Elem "button" [OnClick LearnFromEgnyte; ClassName [Lit "btn-primary"]]
                [Text "Learn from Egnyte"]]];
        el "div" "techniques-grid" [cards]]).

(** *** renderAttackEngine *)

(** [{plan.objectives?.join(', ')}]: only an array has the method,
    and it converts every element. *)
Definition objectivesText (objectives : value) : option node :=
  match objectives with
  | VUndefined | VNull => Some (Expr VUndefined)
  | VArr items =>
      if forallb convertible items
      then Some (Str (joinChunks ", " items)) else None
  | _ => None
  end.

Definition planCard (plan : value) : option node :=
  let! id := oread plan "id" in
  let! key := okey id in
  let! status := oread plan "status" in
  let! badge := ointerpolate status in
  let! target := oread plan "target" in
  let! objectives := oread plan "objectives" in
  let! joined := obind (objectivesText objectives) in
  let! timestamp := oread plan "timestamp" in
  let! created := odate timestamp in
  Some
    (Elem "div" [key; ClassName [Lit "plan-card"]]
       [el "div" "plan-header"
          [Elem "h4" [] [Text "Plan #"; Expr id];
           Elem "span" [ClassName [Lit "status-badge "; badge]]
             [Expr status]];
        el "div" "plan-details"
          [Elem "p" []
             [Elem "strong" [] [Text "Target:"]; Text " ";
              Expr (or_else (optGet target "name") (VStr "Unknown"))];
           Elem "p" []
             [Elem "strong" [] [Text "Objectives:"]; Text " "; joined];
           Elem "p" []
             [Elem "strong" [] [Text "Created:"]; Text " "; created]]]).

Definition renderAttackEngine (s : State) : option node :=
  let! cards := obind (arrayMap (attackPlans s) planCard) in
  Some
    (el "div" "attack-engine"
       [el "div" "section-header"
          [Elem "h2" [] [Text "Attack Engine"];
           el "div" "actions"
             [Elem "button"
                [OnClick CreateAttackPlanPrompts; ClassName [Lit "btn-primary"]]
                [Text "Create Attack Plan"]]];
        el "div" "chatbot-tester"
          [Elem "h3" [] [Text "Chatbot Security Tester"];
           el "div" "tester-form"
             [Elem "input"
                [Plain "type" "url"; Plain "placeholder" "Enter chatbot URL...";
                 Plain "id" "chatbot-url"; ClassName [Lit "url-input"]] [];
              Elem "button"
                [OnClick TestChatbotInput; ClassName [Lit "btn-secondary"]]
                [Text "Test Chatbot"]]];
        el "div" "attack-plans"
          [Elem "h3" [] [Text "Attack Plans"];
           el "div" "plans-list" [cards]]]).

(** *** renderSafetyLayer *)

(** One row of the configuration grid: the flag [key] shown as
    Enabled or Disabled.  The grid is built only for a truthy
    configuration, of which every property can be read. *)
Definition configFlag (config : value) (label key : string) : node :=
  let on := truthy (optGet config key) in
  el "div" "config-item"
    [Elem "label" [] [Text label];
     Elem "span" [ClassName [Lit (if on then "enabled" else "disabled")]]
       [Expr (VStr (if on then "Enabled" else "Disabled"))]].

Definition renderSafetyLayer (s : State) : option node :=
  let config := safetyConfig s in
  Some
    (el "div" "safety-layer"
       [el "div" "section-header"
          [Elem "h2" [] [Text "Safety Layer"];
           el "div" "actions"
             [Elem "button" [OnClick EmergencyStopCall; ClassName [Lit "btn-danger"]]
                [Elem "AlertTriangle" [Size 16] []; Text "Emergency Stop"]]];
        if truthy config
        then
          el "div" "safety-config"
            [Elem "h3" [] [Text "Safety Configuration"];
             el "div" "config-grid"
               [configFlag config "Require Authorization" "require_authorization";
                configFlag config "Log All Activities" "log_all_activities";
                configFlag config "Block Unauthorized Targets"
                           "block_unauthorized_targets";
                el "div" "config-item"
                  [Elem "label" [] [Text "Max Concurrent Attacks"];
                   Elem "span" [] [Expr (optGet config "max_concurrent_attacks")]];
                configFlag config "Emergency Stop" "emergency_stop_enabled"]]
        else Expr config]).

(** *** The component *)

Definition navButton (s : State) (t : Tab) (icon label : string) : node :=
  Elem "button"
    [ClassName [Lit (if String.eqb (activeTab s) (tabName t) then "active" else "")];
     OnClick (NavTo t)]
    [Elem icon [Size 16] []; Text label].

Definition renderTab (t : Tab) (s : State) : option node :=
  match t with
  | dashboard => renderDashboard s
  | knowledge => renderKnowledgeBase s
  | attack => renderAttackEngine s
  | safety => renderSafetyLayer s
  end.

(** [{activeTab === 'name' && render()}] *)
Definition tabSlot (s : State) (t : Tab) : option node :=
  if String.eqb (activeTab s) (tabName t)
  then renderTab t s
  else Some (Expr (VBool false)).

Definition App (s : State) : option node :=
  let! dashboardSlot := obind (tabSlot s dashboard) in
  let! knowledgeSlot := obind (tabSlot s knowledge) in
  let! attackSlot := obind (tabSlot s attack) in
  let! safetySlot := obind (tabSlot s safety) in
  Some
    (el "div" "App"
       [el "header" "app-header"
          [el "div" "header-content"
             [el "div" "logo"
                [el "Shield" "logo-icon" [];
                 Elem "h1" [] [Text "RedHat AI Security Agent"]];
              el "nav" "nav-tabs"
                [navButton s dashboard "Activity" "Dashboard";
                 navButton s knowledge "Brain" "Knowledge Base";
                 navButton s attack "Zap" "Attack Engine";
                 navButton s safety "Lock" "Safety Layer"]]];
        el "main" "app-main"
          [if loading s
           then el "div" "loading" [Text "Loading..."]
           else Expr (VBool false);
           if truthy (errorValue s)
           then el "div" "error" [Expr (errorValue s)]
           else Expr (errorValue s);
           dashboardSlot; knowledgeSlot; attackSlot; safetySlot]]).

(** *** Looking into a tree *)

(** Whether the element carries the class [c]: as its whole
    [className], or as the constant head of a template
    [`c ${...}`]. *)
Definition hasClass (c : string) (attrs : list attr) : bool :=
  existsb (fun a =>
             match a with
             | ClassName [Lit c'] => String.eqb c' c
             | ClassName (Lit c' :: _ :: _) => String.eqb c' (c ++ " ")%string
             | _ => false
             end) attrs.

(** The elements of class [c], in document order. *)
Fixpoint byClass (c : string) (n : node) : list node :=
  match n with
  | Elem _ attrs children =>
      (if hasClass c attrs then [n] else []) ++ flat_map (byClass c) children
  | Items l => flat_map (byClass c) l
  | _ => []
  end.

Definition clickOf (a : attr) : list button :=
  match a with
  | OnClick b => [b]
  | _ => []
  end.

(** The [onClick] handlers a tree offers, in document order. *)
Fixpoint buttons (n : node) : list button :=
  match n with
  | Elem _ attrs children => flat_map clickOf attrs ++ flat_map buttons children
  | Items l => flat_map buttons l
  | _ => []
  end.

Definition childrenOf (n : node) : list node :=
  match n with
  | Elem _ _ children => children
  | Items l => l
  | _ => []
  end.

Definition keyOf (n : node) : option value :=
  match n with
  | Elem _ (Key k :: _) _ => Some k
  | _ => None
  end.

End View.
Import View.

(* ================================================================== *)
(** ** Vocabulary for the invariants of a session *)
(* ================================================================== *)

(** The seven endpoints of the backend that [App] names. *)
Definition fetchEndpoints : list string :=
  [(API_BASE_URL ++ "/api/knowledge/techniques")%string;
   (API_BASE_URL ++ "/api/attack/plans")%string;
   (API_BASE_URL ++ "/api/safety/config")%string].

Definition postEndpoints : list string :=
  [(API_BASE_URL ++ "/api/knowledge/learn/url")%string;
   (API_BASE_URL ++ "/api/attack/plan")%string;
   (API_BASE_URL ++ "/api/attack/chatbot/test")%string;
   (API_BASE_URL ++ "/api/safety/emergency-stop")%string].

Definition oneOf (names : list string) (s : string) : bool :=
  existsb (String.eqb s) names.

Definition knownEndpoint (r : request) : bool :=
  match r with
  | GET url => oneOf fetchEndpoints url
  | POST url _ => oneOf postEndpoints url
  end.

Definition tabNames : list string :=
  [tabName dashboard; tabName knowledge; tabName attack; tabName safety].

Definition failureMessages : list string :=
  [failureMessage Refresh;
   failureMessage (LearnFromUrl "");
   failureMessage (CreateAttackPlan VNull []);
   failureMessage (TestChatbot "" None);
   failureMessage EmergencyStop].

Definition isNull (v : value) : bool :=
  match v with
  | VNull => true
  | _ => false
  end.

(** What every effect of [App] satisfies: a collection is replaced by a
    truthy value, the configuration by a truthy value or [null], the
    view by one of the four names, the error by one of the five
    messages, and a request goes to one of the seven endpoints. *)
Definition sound (e : effect) : bool :=
  match e with
  | SetActiveTab t => oneOf tabNames t
  | SetTechniques v | SetAttackPlans v => truthy v
  | SetSafetyConfig v => truthy v || isNull v
  | SetError (Some m) => oneOf failureMessages m
  | SetError None => false
  | Dispatch r => knownEndpoint r
  | SetLoading _ | Alert _ | ConsoleError => true
  end.

(** The same for a state. *)
Definition wellFormed (s : State) : Prop :=
  oneOf tabNames (activeTab s) = true /\
  truthy (techniques s) = true /\
  truthy (attackPlans s) = true /\
  (safetyConfig s = VNull \/ truthy (safetyConfig s) = true) /\
  (error s = None \/ exists m, error s = Some m /\ oneOf failureMessages m = true).

Definition keepsTab (e : effect) : bool :=
  match e with
  | SetActiveTab _ => false
  | _ => true
  end.

(** Every function in flight passes [ok] on all it will ever do. *)
Definition inflight_ok (ok : effect -> bool) (p : Page) : Prop :=
  Forall (fun w => forall outs, emits_only ok (resume w outs)) (inflight p).

(** Tags the knowledge view can draw: an array, or a falsy value. *)
Definition drawableTags (tags : value) : bool :=
  match tags with
  | VArr _ => true
  | other => negb (truthy other)
  end.

(** A technique the dashboard can draw: not [null] or [undefined], its
    [id] and its [category] convertible to a string. *)
Definition drawableEntry (t : value) : bool :=
  negb (nullish t) &&
  convertible (optGet t "id") &&
  convertible (optGet t "category").

(** A technique the knowledge view can draw: not [null] or
    [undefined], its [id] convertible to a string, its [severity] a
    string or absent, its [tags] an array or falsy. *)
Definition drawableTechnique (t : value) : bool :=
  negb (nullish t) &&
  convertible (optGet t "id") &&
  match optGet t "severity" with
  | VUndefined | VNull | VStr _ => true
  | _ => false
  end &&
  drawableTags (optGet t "tags").

(** A plan the attack view can draw: not [null] or [undefined], its
    [id], [status] and [timestamp] convertible to a string, its
    [objectives] absent or an array of convertible values. *)
Definition drawablePlan (plan : value) : bool :=
  negb (nullish plan) &&
  convertible (optGet plan "id") &&
  convertible (optGet plan "status") &&
  match optGet plan "objectives" with
  | VUndefined | VNull => true
  | VArr items => forallb convertible items
  | _ => false
  end &&
  convertible (optGet plan "timestamp").

(** A request whose body carries an empty [url]: what [learnFromUrl]
    and [testChatbot] would post for the empty string. *)
Definition carriesEmptyUrl (r : request) : bool :=
  match r with
  | POST _ (VObj fields) =>
      match lookup "url" fields with
      | VStr url => String.eqb url ""
      | _ => false
      end
  | _ => false
  end.

Definition sendsNoEmptyUrl (e : effect) : bool :=
  match e with
  | Dispatch r => negb (carriesEmptyUrl r)
  | _ => true
  end.

(** The suspended rest of an operation: every operation awaits once
    before it does anything else that depends on the backend. *)
Definition pendingOf (o : operation) : option pending :=
  match snd (run_sync (body o)) with
  | [w] => Some w
  | _ => None
  end.

(** What an operation does when its requests settle as [outs]. *)
Definition settledEffects (o : operation) (outs : list outcome) : list effect :=
  match pendingOf o with
  | Some w => fst (run_sync (resume w outs))
  | None => []
  end.

(** The operation ends in its catch block. *)
Definition endsFailed (o : operation) (outs : list outcome) : bool :=
  existsb setsError (settledEffects o outs).

(** A refresh whose three fetches are fulfilled and whose first response
    can be read: it stores the techniques before it reads the other two
    responses. *)
Definition storesBeforeReadingAll (o : operation) (outs : list outcome) : bool :=
  match o, outs with
  | Refresh, [Fulfilled first; Fulfilled _; Fulfilled _] => negb (nullish first)
  | _, _ => false
  end.

(** The buttons each view offers besides the navigation. *)
Definition viewButtons (t : Tab) : list button :=
  match t with
  | dashboard => []
  | knowledge => [LearnFromUrlPrompt; LearnFromEgnyte]
  | attack => [CreateAttackPlanPrompts; TestChatbotInput]
  | safety => [EmergencyStopCall]
  end.

Definition isSome {A : Type} (x : option A) : bool :=
  match x with
  | Some _ => true
  | None => false
  end.

(** A technique, a plan and a state as the backend documents them, to
    run the views on. *)
Definition sampleTechnique (id : Z) (severity : value) : value :=
  VObj [("id", VNum id); ("name", VStr "Prompt injection");
        ("description", VStr "Override the system prompt");
        ("category", VStr "injection"); ("severity", severity)].

Definition samplePlan : value :=
  VObj [("id", VNum 1);
        ("target", VObj [("name", VStr "Acme"); ("url", VStr "https://acme.test");
                         ("type", VStr "web_application")]);
        ("objectives", VArr (map VStr ["Identify vulnerabilities";
                                       "Test security controls"]));
        ("status", VStr "planned"); ("timestamp", VStr "2024-01-01T00:00:00")].

Definition sampleState : State :=
  mkState "dashboard"
          (VArr (map (fun i => sampleTechnique i (VStr "HIGH")) [1; 2; 3; 4; 5; 6; 7]%Z))
          (VArr [samplePlan])
          (VObj [("emergency_stop_enabled", VBool true)])
          false None.

(* ================================================================== *)
(** ** Basic facts about the event loop *)
(* ================================================================== *)

Section EventLoop.

Lemma applyAll_app (s : State) (es1 es2 : list effect) :
  applyAll s (es1 ++ es2) = applyAll (applyAll s es1) es2.
Proof. unfold applyAll. apply fold_left_app. Qed.

Lemma steps_app (p : Page) (ins1 ins2 : list input) :
  steps p (ins1 ++ ins2) = steps (steps p ins1) ins2.
Proof. unfold steps. apply fold_left_app. Qed.

Lemma launch_ret (p : Page) : launch p Ret = p.
Proof.
  destruct p as [s fl h]. unfold launch. cbn.
  now rewrite !app_nil_r.
Qed.

(** A handler that merely calls an async function behaves as that
    function's synchronous prefix. *)
Lemma launch_fork_ret (p : Page) (t : task) :
  launch p (Fork t Ret) = launch p t.
Proof. unfold launch. cbn. now rewrite !app_nil_r. Qed.

Lemma nth_error_last {A : Type} (l : list A) (x : A) (l' : list A) :
  nth_error (l ++ x :: l') (List.length l) = Some x.
Proof. induction l as [|y l IH]; cbn; auto. Qed.

Lemma remove_nth_last {A : Type} (l : list A) (x : A) (l' : list A) :
  remove_nth (List.length l) (l ++ x :: l') = l ++ l'.
Proof. induction l as [|y l IH]; cbn; congruence. Qed.

Lemma nth_error_length {A : Type} (l : list A) :
  nth_error l (List.length l) = None.
Proof. induction l as [|y l IH]; cbn; auto. Qed.

(** Settling the request that a task has just issued resumes that task
    on the state it left behind. *)
Lemma settle_launched (p : Page) (t : task) (w : pending) (outs : list outcome) :
  snd (run_sync t) = [w] ->
  List.length outs = List.length (awaited w) ->
  settle p (launch p t) outs =
  launch (mkPage (applyAll (store p) (fst (run_sync t)))
                 (inflight p)
                 (history p ++ fst (run_sync t)))
         (resume w outs).
Proof.
  intros Hw Hlen. unfold settle, step, launch. cbn [inflight store history].
  rewrite Hw, nth_error_last, remove_nth_last, app_nil_r.
  apply Nat.eqb_eq in Hlen. now rewrite Hlen.
Qed.

(** When nothing was left suspended, there is nothing to settle. *)
Lemma settle_nothing (p : Page) (t : task) (outs : list outcome) :
  snd (run_sync t) = [] ->
  settle p (launch p t) outs = launch p t.
Proof.
  intros Hw. unfold settle, step, launch. cbn [inflight].
  now rewrite Hw, app_nil_r, nth_error_length.
Qed.

End EventLoop.

(* ================================================================== *)
(** ** The view selector *)
(* ================================================================== *)

Section ViewSelector.

Lemma tabName_inj (t u : Tab) : tabName t = tabName u -> t = u.
Proof. destruct t, u; cbn; intros H; try reflexivity; discriminate H. Qed.

Lemma visible_iff (s : State) (t u : Tab) :
  activeTab s = tabName t -> (visible s u = true <-> u = t).
Proof.
  intros H. unfold visible. rewrite H, String.eqb_eq. split.
  - intros E. symmetry. now apply tabName_inj.
  - now intros ->.
Qed.

(** C8: the view selector starts in the dashboard view; pressing the
    navigation button of a view [t] makes [t] the active (and only
    visible) view whatever the view was before, writes no other cell of
    the state, dispatches no request and suspends nothing. *)
Theorem view_selection_only_changes_active_view :
  activeTab initialState = tabName dashboard /\
  forall (p : Page) (t : Tab),
    let p' := step p (User (NavButton t)) in
    activeTab (store p') = tabName t /\
    (forall u, visible (store p') u = true <-> u = t) /\
    techniques (store p') = techniques (store p) /\
    attackPlans (store p') = attackPlans (store p) /\
    safetyConfig (store p') = safetyConfig (store p) /\
    loading (store p') = loading (store p) /\
    error (store p') = error (store p) /\
    inflight p' = inflight p /\
    history p' = history p ++ [SetActiveTab (tabName t)] /\
    dispatched [SetActiveTab (tabName t)] = [].
Proof.
  split; [reflexivity|].
  intros p t p'. subst p'. unfold step, launch. cbn.
  rewrite app_nil_r.
  repeat split; try reflexivity.
  - intros H. apply String.eqb_eq in H. symmetry. now apply tabName_inj.
  - intros ->. apply String.eqb_refl.
Qed.

End ViewSelector.

(* ================================================================== *)
(** ** What a task can ever emit *)
(* ================================================================== *)

Section EmitsOnly.

Variable ok : effect -> bool.

Lemma emits_only_try_catch (body handler : task) :
  emits_only ok body -> emits_only ok handler ->
  emits_only ok (try_catch body handler).
Proof.
  intros Hb Hh. induction Hb; cbn; try constructor; auto.
Qed.

Lemma emits_only_and_then (t k : task) :
  emits_only ok t -> emits_only ok k -> emits_only ok (and_then t k).
Proof.
  intros Ht Hk. induction Ht; cbn; try constructor; auto.
Qed.

Lemma emits_only_try_finally (body fin : task) :
  emits_only ok body -> emits_only ok fin ->
  emits_only ok (try_finally body fin).
Proof.
  intros Hb Hf. induction Hb; cbn; try constructor; auto.
  apply emits_only_and_then; [assumption | constructor].
Qed.

Lemma run_sync_emits_only (t : task) :
  emits_only ok t ->
  Forall (fun e => ok e = true) (fst (run_sync t)) /\
  Forall (fun w => forall outs, emits_only ok (resume w outs)) (snd (run_sync t)).
Proof.
  induction 1 as [| | e k He Hk [IHe IHw] | rs k Hrs Hk IH
                 | child k Hc [IHc1 IHc2] Hk [IHk1 IHk2]]; cbn.
  - split; constructor.
  - split; constructor.
  - split; [constructor|]; assumption.
  - split.
    + apply Forall_forall. rewrite forallb_forall in Hrs. exact Hrs.
    + constructor; [exact Hk | constructor].
  - split; apply Forall_app; split; assumption.
Qed.

Lemma launch_page_ok (p : Page) (t : task) :
  page_ok ok p -> emits_only ok t -> page_ok ok (launch p t).
Proof.
  intros [Hh Hw] Ht. destruct (run_sync_emits_only Ht) as [He Hp].
  split; cbn; apply Forall_app; split; assumption.
Qed.

Lemma Forall_remove_nth {A : Type} (P : A -> Prop) (n : nat) (l : list A) :
  Forall P l -> Forall P (remove_nth n l).
Proof.
  intros H. revert n. induction H as [|x l Hx Hl IH]; intros n.
  - destruct n; constructor.
  - destruct n; cbn; [assumption | constructor; auto].
Qed.

Hypothesis handlers_ok : forall c, emits_only ok (handler c).

Lemma step_page_ok (p : Page) (i : input) :
  page_ok ok p -> page_ok ok (step p i).
Proof.
  intros Hp. destruct i as [c | n outs]; cbn.
  - apply launch_page_ok; auto.
  - destruct (nth_error (inflight p) n) as [w|] eqn:Hn; [|assumption].
    destruct (Nat.eqb _ _); [|assumption].
    destruct Hp as [Hh Hw].
    apply launch_page_ok.
    + split; cbn; [assumption | now apply Forall_remove_nth].
    + apply nth_error_In in Hn. rewrite Forall_forall in Hw. now apply Hw.
Qed.

Lemma steps_page_ok (ins : list input) (p : Page) :
  page_ok ok p -> page_ok ok (steps p ins).
Proof.
  revert p. induction ins as [|i ins IH]; intros p Hp; cbn; [assumption|].
  apply IH. now apply step_page_ok.
Qed.

End EmitsOnly.

Ltac emits :=
  repeat first
    [ apply eo_ret
    | apply eo_throw
    | apply eo_do; [reflexivity|]
    | apply eo_fork
    | apply eo_await; [reflexivity | intros ?]
    | apply emits_only_try_finally
    | apply emits_only_try_catch
    | match goal with
      | |- emits_only _ (match ?x with _ => _ end) => destruct x
      end
    | progress unfold try_catch_finally, await, await_all3, read, interpolate
    | progress cbn beta ].

Section StaticFacts.

Lemma operations_keep_error (o : operation) : emits_only keepsError (body o).
Proof. destruct o; cbn [body]; emits. Qed.

Lemma handlers_keep_error (c : control) : emits_only keepsError (handler c).
Proof.
  destruct c as [ | t | [url|] | | name url | v | ]; cbn [handler];
    try match goal with |- context [if ?b then _ else _] => destruct b end;
    emits.
Qed.

Lemma test_chatbot_leaves_data (url : string) (testType : option string) :
  emits_only leavesData (testChatbot url testType).
Proof. unfold testChatbot. emits. Qed.

Lemma emergency_stop_leaves_data : emits_only leavesData emergencyStop.
Proof. unfold emergencyStop. emits. Qed.

End StaticFacts.

(* ================================================================== *)
(** ** Running one operation to completion *)
(* ================================================================== *)

Ltac one_outcome outs H :=
  destruct outs as [|? [|? ?]]; try discriminate H.

Ltac three_outcomes outs H :=
  destruct outs as [|? [|? [|? [|? ?]]]]; try discriminate H.

(** Rewrite [settle p (start p o) outs] into the resumed continuation. *)
Ltac settle_op H :=
  unfold start; cbn [body];
  erewrite settle_launched; [ | cbn; reflexivity | cbn; exact H ].

(** Evaluate the program text, splitting on every outcome and on every
    property read that may throw. *)
Ltac exec :=
  repeat (cbn -[get settle];
          match goal with
          | |- context [read ?v ?k _] => unfold read at 1
          | |- context [interpolate ?v _] => unfold interpolate at 1
          | |- context [if convertible ?v then _ else _] =>
              destruct (convertible v) eqn:?
          | |- context [match get ?v ?k with _ => _ end] =>
              destruct (get v k) eqn:?
          | |- context [match ?o with Fulfilled _ => _ | Rejected => _ end] =>
              destruct o
          end);
  cbn -[get settle].

Section Operations.

Lemma dispatched_app (es1 es2 : list effect) :
  dispatched (es1 ++ es2) = dispatched es1 ++ dispatched es2.
Proof.
  induction es1 as [|e es1 IH]; cbn; [reflexivity|].
  destruct e; cbn; congruence.
Qed.

(** Settling at the position of a request that is the last one in
    flight. *)
Lemma settle_last (p : Page) (s : State) (w : pending) (h : list effect)
      (outs : list outcome) :
  settle p (mkPage s (inflight p ++ [w]) h) outs =
  if Nat.eqb (List.length outs) (List.length (awaited w))
  then launch (mkPage s (inflight p) h) (resume w outs)
  else mkPage s (inflight p ++ [w]) h.
Proof.
  unfold settle, step. cbn [inflight store history].
  now rewrite nth_error_last, remove_nth_last, app_nil_r.
Qed.

Lemma settle_none (p : Page) (s : State) (h : list effect) (outs : list outcome) :
  settle p (mkPage s (inflight p) h) outs = mkPage s (inflight p) h.
Proof.
  unfold settle, step. cbn [inflight].
  now rewrite nth_error_length.
Qed.

(** C3, as stated, fails for [emergencyStop]: its request is in flight
    while [loading] is still false. *)
Lemma emergency_stop_pending_without_loading :
  let p := start initialPage EmergencyStop in
  List.length (inflight p) = 1%nat /\
  loading (store initialPage) = false /\
  loading (store p) = false /\
  existsb touchesLoading (history p) = false.
Proof. cbn. repeat split; reflexivity. Qed.

(** C3, amended: refresh, learnFromUrl, createAttackPlan and testChatbot
    set [loading] when they start, and [loading] is false once their
    request has settled, on success and on failure, and still false
    after the refresh that a write operation starts has settled;
    emergencyStop never touches [loading]. *)
Theorem loading_lifecycle (p : Page) (o : operation) (outs : list outcome) :
  List.length outs = arity o ->
  let p1 := start p o in
  let p2 := settle p p1 outs in
  match o with
  | EmergencyStop =>
      loading (store p1) = loading (store p) /\
      loading (store p2) = loading (store p) /\
      inflight p2 = inflight p
  | _ =>
      loading (store p1) = true /\
      loading (store p2) = false /\
      forall outs', loading (store (settle p p2 outs')) = false
  end.
Proof.
  intros H p1 p2. subst p1 p2.
  destruct o; cbn [arity] in H; settle_op H;
    [three_outcomes outs H | one_outcome outs H ..];
    unfold launch; exec; rewrite ?app_nil_r;
    repeat split; try reflexivity; intros outs'; 
    rewrite ?settle_none; try reflexivity.
  all: rewrite settle_last; cbn [awaited resume];
    destruct (Nat.eqb _ _) eqn:E; [|reflexivity];
    apply Nat.eqb_eq in E; three_outcomes outs' E;
    unfold launch; exec; reflexivity.
Qed.

(** A write operation calls the refresh without awaiting it: its own
    [finally] clears [loading] while the three fetches are still in
    flight. *)
Lemma write_operation_clears_loading_before_refresh_settles :
  let o := CreateAttackPlan (VObj [("name", VStr "Acme")]) ["Identify vulnerabilities"] in
  let p2 := settle initialPage (start initialPage o) [Fulfilled VNull] in
  map (@awaited) (inflight p2) = [refreshRequests] /\
  loading (store p2) = false.
Proof. cbn. split; reflexivity. Qed.

(** C4, as stated, fails twice.  By design, [emergencyStop] does not
    manage [loading]: when it fails while another operation is pending,
    [loading] stays true.  And a refresh whose three fetches are
    fulfilled, the second with the body [null], has already stored the
    techniques when reading the plans throws: it ends with [error] set
    and [techniques] replaced. *)
Lemma failed_operation_not_all_or_nothing :
  (let p := steps initialPage
              [User LearnFromEgnyteButton; User EmergencyStopButton;
               Settle 1 [Rejected]] in
   error (store p) = Some "Failed to activate emergency stop" /\
   loading (store p) = true) /\
  (let outs := [Fulfilled (VObj [("techniques", VArr [VStr "t"])]);
                Fulfilled VNull;
                Fulfilled (VObj [("safety_config", VNull)])] in
   let p := settle initialPage (start initialPage Refresh) outs in
   error (store p) = Some "Failed to load dashboard data" /\
   techniques (store initialPage) = VArr [] /\
   techniques (store p) = VArr [VStr "t"]).
Proof. cbn. repeat split; reflexivity. Qed.

(** C9: a refresh in which any of the three fetches is rejected writes
    none of the three slices: it only sets [error] and clears [loading].
    Hence whenever a refresh changed a slice, all three fetches had been
    fulfilled. *)
Theorem refresh_writes_only_when_all_fetches_succeed
        (p : Page) (outs : list outcome) :
  List.length outs = 3%nat ->
  let p2 := settle p (start p Refresh) outs in
  (In Rejected outs ->
     slices (store p2) = slices (store p) /\
     history p2 =
       history p ++
       SetLoading true :: map Dispatch refreshRequests ++
       [SetError (Some "Failed to load dashboard data"); ConsoleError;
        SetLoading false]) /\
  (slices (store p2) <> slices (store p) ->
     exists d1 d2 d3, outs = [Fulfilled d1; Fulfilled d2; Fulfilled d3]).
Proof.
  intros H p2.
  assert (Hrej : In Rejected outs ->
     slices (store p2) = slices (store p) /\
     history p2 =
       history p ++
       SetLoading true :: map Dispatch refreshRequests ++
       [SetError (Some "Failed to load dashboard data"); ConsoleError;
        SetLoading false]).
  { intros Hin. subst p2. settle_op H. three_outcomes outs H.
    unfold launch; exec; rewrite ?app_nil_r, <- ?app_assoc;
      try (exfalso; cbn in Hin; intuition discriminate);
      split; reflexivity. }
  split; [exact Hrej|].
  intros Hchanged.
  three_outcomes outs H.
  repeat match goal with
         | o : outcome |- _ => destruct o as [?d|]
         end;
    try (exfalso; apply Hchanged; apply Hrej; cbn; tauto).
  now eauto.
Qed.

(** C7: [emergencyStop] posts its one request and nothing else: it
    fetches nothing and writes no data slice, whether the request is
    fulfilled or rejected and whatever else is going on; when fulfilled
    it tells the user with an alert and leaves the state as it was, when
    rejected it sets [error]. *)
Theorem emergency_stop_frame (p : Page) (out : outcome) :
  let request :=
    POST "http://localhost:5000/api/safety/emergency-stop"
         (VObj [("reason", VStr "Manual emergency stop from UI")]) in
  let p1 := start p EmergencyStop in
  let p2 := settle p p1 [out] in
  emits_only leavesData emergencyStop /\
  store p1 = store p /\
  slices (store p2) = slices (store p) /\
  inflight p2 = inflight p /\
  dispatched (history p2) = dispatched (history p) ++ [request] /\
  match out with
  | Fulfilled _ =>
      history p2 =
        history p ++ [Dispatch request; Alert [Lit "Emergency stop activated!"]] /\
      store p2 = store p
  | Rejected =>
      history p2 =
        history p ++
        [Dispatch request;
         SetError (Some "Failed to activate emergency stop"); ConsoleError] /\
      error (store p2) = Some "Failed to activate emergency stop"
  end.
Proof.
  intros request p1 p2. subst request p1 p2.
  split; [apply emergency_stop_leaves_data|].
  split; [reflexivity|].
  settle_op (eq_refl 1%nat).
  unfold launch; exec; rewrite ?app_nil_r, <- ?app_assoc, ?dispatched_app;
    repeat split; reflexivity.
Qed.

(** C10: [testChatbot] never writes a data slice and never fetches one,
    for every input and however its request settles.  Once it has
    settled nothing stays suspended, and the state differs from the
    prior one at most in [loading] and [error]: either the test result
    went into one alert (the number of vulnerabilities and the risk
    level, and nowhere else), or [error] carries the failure message. *)
Theorem test_chatbot_frame
        (p : Page) (url : string) (testType : option string) (out : outcome) :
  let request :=
    POST "http://localhost:5000/api/attack/chatbot/test"
         (VObj [("url", VStr url);
                ("test_type",
                 VStr (match testType with Some t => t | None => "basic" end))]) in
  let p1 := start p (TestChatbot url testType) in
  let p2 := settle p p1 [out] in
  emits_only leavesData (testChatbot url testType) /\
  slices (store p1) = slices (store p) /\
  slices (store p2) = slices (store p) /\
  inflight p2 = inflight p /\
  ((exists count risk,
       history p2 =
         history p ++
         [SetLoading true; Dispatch request;
          Alert [Lit "Chatbot test completed!"; Lit newline;
                 Lit "Vulnerabilities found: "; Hole count; Lit newline;
                 Lit "Risk level: "; Hole risk];
          SetLoading false] /\
       store p2 = apply (store p) (SetLoading false))
   \/
   (history p2 =
      history p ++
      [SetLoading true; Dispatch request;
       SetError (Some "Failed to test chatbot"); ConsoleError;
       SetLoading false] /\
    store p2 =
      apply (apply (store p) (SetError (Some "Failed to test chatbot")))
            (SetLoading false))).
Proof.
  intros request p1 p2. subst request p1 p2.
  split; [apply test_chatbot_leaves_data|].
  split; [reflexivity|].
  settle_op (eq_refl 1%nat).
  unfold launch; exec; rewrite ?app_nil_r, <- ?app_assoc;
    (split; [reflexivity|]); (split; [reflexivity|]);
    solve [ right; split; reflexivity
          | left; do 2 eexists; split; reflexivity ].
Qed.

(** What the alert of a chatbot test shows when the response has the
    shape the backend documents. *)
Lemma test_chatbot_alert (p : Page) (url : string) (found : list value) (risk : string) :
  let data :=
    VObj [("results",
           VObj [("vulnerabilities_found", VArr found);
                 ("test_summary", VObj [("risk_level", VStr risk)])])] in
  let p2 := settle p (start p (TestChatbot url None)) [Fulfilled data] in
  In (Alert [Lit "Chatbot test completed!"; Lit newline;
             Lit "Vulnerabilities found: ";
             Hole (VNum (Z.of_nat (List.length found))); Lit newline;
             Lit "Risk level: "; Hole (VStr risk)])
     (history p2) /\
  store p2 = apply (store p) (SetLoading false).
Proof.
  intros data p2. subst data p2.
  settle_op (eq_refl 1%nat). unfold launch. cbn.
  split; [|reflexivity].
  apply in_or_app. right. cbn. tauto.
Qed.

(** After the request of a refresh has settled, the refresh is over: it
    dispatches nothing further and leaves nothing suspended. *)
Lemma refresh_settles_quietly (p : Page) (s : State) (h : list effect)
      (w : pending) (outs : list outcome) :
  snd (run_sync loadDashboardData) = [w] ->
  let p3 := settle p (mkPage s (inflight p ++ [w]) h) outs in
  dispatched (history p3) = dispatched h /\
  (List.length outs = 3%nat -> inflight p3 = inflight p).
Proof.
  intros Hw p3. subst p3. cbn in Hw. injection Hw as <-.
  rewrite settle_last. cbn [awaited resume].
  destruct (Nat.eqb _ _) eqn:E.
  - apply Nat.eqb_eq in E. cbn in E. three_outcomes outs E.
    unfold launch; exec; rewrite ?app_nil_r, ?dispatched_app;
      cbn; rewrite ?app_nil_r; split; reflexivity.
  - split; [reflexivity|]. intros Hlen. rewrite Hlen in E. discriminate E.
Qed.

(** C6: when the request of learnFromUrl or createAttackPlan has
    settled, the operation has either failed (it set [error]) and then
    dispatched nothing, or it has succeeded and then dispatched exactly
    the three fetches of one refresh, once each; that refresh, when it
    settles, dispatches nothing more.  A rejected request is a failure;
    a fulfilled one is a success (for learnFromUrl: when the response
    carries the array of learned techniques). *)
Theorem write_operation_refreshes_once
        (p : Page) (o : operation) (out : outcome) :
  isWrite o = true ->
  let p1 := start p o in
  let p2 := settle p p1 [out] in
  exists es,
    history p2 = history p1 ++ es /\
    dispatched es = (if existsb setsError es then [] else refreshRequests) /\
    map (@awaited) (inflight p2) =
      map (@awaited) (inflight p) ++
      (if existsb setsError es then [] else [refreshRequests]) /\
    (out = Rejected -> existsb setsError es = true) /\
    (forall d, out = Fulfilled d ->
       match o with
       | LearnFromUrl _ =>
           (exists l, get d "techniques" = Some (VArr l)) ->
           existsb setsError es = false
       | _ => existsb setsError es = false
       end) /\
    (forall outs3,
       let p3 := settle p p2 outs3 in
       dispatched (history p3) = dispatched (history p2) /\
       (List.length outs3 = 3%nat -> inflight p3 = inflight p)).
Proof.
  intros Hw p1 p2. subst p1 p2.
  destruct o; try discriminate Hw; settle_op (eq_refl 1%nat);
    unfold launch; exec; rewrite ?app_nil_r;
    eexists; (split; [reflexivity|]); cbn -[get settle];
    rewrite ?map_app, ?app_nil_r;
    (split; [reflexivity|]); (split; [reflexivity|]);
    (split; [intros E; first [reflexivity | discriminate E] |]);
    (split;
     [ intros d E; try discriminate E; try reflexivity;
       injection E as <-; intros [l Hl]; exfalso;
       repeat match goal with
              | H : get _ "techniques" = _ |- _ =>
                  rewrite Hl in H; first [discriminate H | injection H as <-]
              | H : get (VArr _) "length" = _ |- _ =>
                  cbn in H; first [discriminate H | injection H as <-]
              | H : convertible (VNum _) = false |- _ => discriminate H
              end
     | intros outs3; cbn zeta ]).
  all: try (rewrite settle_none; split; reflexivity).
  all: apply refresh_settles_quietly; reflexivity.
Qed.

(** A refresh whose three fetches are fulfilled with readable bodies
    stores what it fetched (or the default, where a field is missing or
    falsy), whatever the state held before. *)
Lemma refresh_replaces (s : State) (d1 d2 d3 t a c : value) :
  get d1 "techniques" = Some t ->
  get d2 "attack_plans" = Some a ->
  get d3 "safety_config" = Some c ->
  slices (refresh s [Fulfilled d1; Fulfilled d2; Fulfilled d3]) =
  (or_else t (VArr []), or_else a (VArr []), or_else c VNull).
Proof.
  intros Ht Ha Hc. unfold refresh, step, launch. cbn -[get].
  unfold read. rewrite Ht. cbn -[get].
  rewrite Ha. cbn -[get]. rewrite Hc. reflexivity.
Qed.

(** C5: after any sequence of refreshes, if the last one fetched the
    techniques [ts], the plans [ps] and the configuration [cfg], then
    the state holds exactly [ts], [ps] and [cfg]: nothing of the earlier
    state or of the earlier payloads is left. *)
Theorem refresh_stores_latest_payload
        (s : State) (earlier : list (list outcome))
        (d1 d2 d3 : value) (ts ps : list value) (cfg : list (string * value)) :
  get d1 "techniques" = Some (VArr ts) ->
  get d2 "attack_plans" = Some (VArr ps) ->
  get d3 "safety_config" = Some (VObj cfg) ->
  let s' :=
    fold_left refresh (earlier ++ [[Fulfilled d1; Fulfilled d2; Fulfilled d3]]) s in
  techniques s' = VArr ts /\
  attackPlans s' = VArr ps /\
  safetyConfig s' = VObj cfg.
Proof.
  intros Ht Ha Hc s'. subst s'.
  rewrite fold_left_app. cbn [fold_left].
  pose proof (refresh_replaces (fold_left refresh earlier s) _ _ _ Ht Ha Hc) as H.
  unfold slices in H. cbn in H. now inversion H.
Qed.

End Operations.

(* ================================================================== *)
(** ** The error slice *)
(* ================================================================== *)

Section ErrorSlice.

(** C2, as stated, fails: after a failed refresh, a learnFromUrl that
    succeeds, refresh included, neither clears [error] on entering
    Pending nor leaves it null when done. *)
Lemma error_survives_successful_operation :
  let p1 := steps initialPage [User Mount; Settle 0 [Rejected; Rejected; Rejected]] in
  let p2 := step p1 (User LearnFromEgnyteButton) in
  let p3 := steps p2 [Settle 0 [Fulfilled (VObj [("techniques", VArr [VNull])])];
                      Settle 0 goodRefresh] in
  error (store p1) = Some "Failed to load dashboard data" /\
  loading (store p2) = true /\
  error (store p2) = Some "Failed to load dashboard data" /\
  existsb setsError (skipn (List.length (history p1)) (history p3)) = false /\
  inflight p3 = [] /\
  error (store p3) = Some "Failed to load dashboard data".
Proof. cbn. repeat split; reflexivity. Qed.

Lemma applyAll_keeps_error (es : list effect) (s : State) :
  Forall (fun e => keepsError e = true) es ->
  error s <> None -> error (applyAll s es) <> None.
Proof.
  intros H. revert s. induction H as [|e es He Hes IH]; intros s Hs; cbn.
  - exact Hs.
  - apply IH. destruct e as [| | | | |[m|]| | |]; cbn; try exact Hs.
    + discriminate.
    + discriminate He.
Qed.

Lemma step_keeps_error (p : Page) (i : input) :
  page_ok keepsError p ->
  error (store p) <> None -> error (store (step p i)) <> None.
Proof.
  intros [Hh Hw] He. destruct i as [c | n outs]; cbn.
  - apply applyAll_keeps_error; [|exact He].
    apply run_sync_emits_only, handlers_keep_error.
  - destruct (nth_error (inflight p) n) as [w|] eqn:Hn; [|exact He].
    destruct (Nat.eqb _ _); [|exact He].
    cbn. apply applyAll_keeps_error; [|exact He].
    apply run_sync_emits_only.
    apply nth_error_In in Hn. rewrite Forall_forall in Hw. now apply Hw.
Qed.

Lemma steps_keep_error (ins : list input) (p : Page) :
  page_ok keepsError p ->
  error (store p) <> None -> error (store (steps p ins)) <> None.
Proof.
  revert p. induction ins as [|i ins IH]; intros p Hp He; cbn; [exact He|].
  apply IH.
  - apply step_page_ok; [apply handlers_keep_error | exact Hp].
  - now apply step_keeps_error.
Qed.

Lemma initialPage_ok : page_ok keepsError initialPage.
Proof. split; constructor. Qed.

(** C2, amended: no operation ever clears [error].  In every run of the
    page no [setError(null)] happens, so an error, once set, stays set
    whatever the user does and however requests settle; starting an
    operation leaves [error] as it is, and when its request has settled
    [error] is either still as it was or the operation's own failure
    message. *)
Theorem error_is_never_cleared :
  (forall ins,
     Forall (fun e => clearsError e = false) (history (steps initialPage ins))) /\
  (forall ins1 ins2,
     error (store (steps initialPage ins1)) <> None ->
     error (store (steps initialPage (ins1 ++ ins2))) <> None) /\
  (forall p o, error (store (start p o)) = error (store p)) /\
  (forall p o outs,
     List.length outs = arity o ->
     let p2 := settle p (start p o) outs in
     error (store p2) = error (store p) \/
     error (store p2) = Some (failureMessage o)).
Proof.
  split; [|split; [|split]].
  - intros ins.
    destruct (steps_page_ok handlers_keep_error ins initialPage_ok) as [Hh _].
    eapply Forall_impl; [|exact Hh].
    intros e He. unfold keepsError in He. now destruct (clearsError e).
  - intros ins1 ins2 He. rewrite steps_app.
    apply steps_keep_error; [|exact He].
    apply steps_page_ok; [apply handlers_keep_error | apply initialPage_ok].
  - intros p o. destruct o; reflexivity.
  - intros p o outs H p2. subst p2.
    destruct o; cbn [arity] in H; settle_op H;
      [three_outcomes outs H | one_outcome outs H ..];
      unfold launch; exec; solve [left; reflexivity | right; reflexivity].
Qed.

End ErrorSlice.

(* ================================================================== *)
(** ** The theorems at work on concrete runs *)
(* ================================================================== *)

Section Instances.

Lemma view_selection_instance :
  visible (store (step initialPage (User (NavButton safety)))) safety = true.
Proof.
  destruct (proj2 view_selection_only_changes_active_view initialPage safety)
    as (_ & H & _).
  apply H. reflexivity.
Defined.

Lemma error_is_never_cleared_instance :
  let ins1 := [User Mount; Settle 0 [Rejected; Rejected; Rejected]] in
  let ins2 := [User (TestChatbotButton "https://bot.test");
               Settle 0 [Fulfilled VNull]; User EmergencyStopButton;
               Settle 0 [Fulfilled VNull]] in
  error (store (steps initialPage ins1)) <> None /\
  error (store (steps initialPage (ins1 ++ ins2))) <> None.
Proof.
  split.
  - cbn. discriminate.
  - apply (proj1 (proj2 error_is_never_cleared)). cbn. discriminate.
Defined.

Lemma loading_lifecycle_instance :
  let o := CreateAttackPlan (VObj [("name", VStr "Acme")]) ["Identify vulnerabilities"] in
  List.length [Fulfilled VNull] = arity o /\
  loading (store (start initialPage o)) = true /\
  loading (store (settle initialPage (start initialPage o) [Fulfilled VNull])) = false.
Proof.
  intros o. split; [reflexivity|].
  destruct (loading_lifecycle initialPage o [Fulfilled VNull] eq_refl)
    as (H1 & H2 & _).
  split; assumption.
Defined.

Lemma refresh_stores_latest_payload_instance :
  let d1 := VObj [("techniques", VArr [VObj [("id", VNum 1)]; VObj [("id", VNum 2)]])] in
  let d2 := VObj [("attack_plans", VArr [VObj [("id", VNum 7)]])] in
  let d3 := VObj [("safety_config", VObj [("emergency_stop_enabled", VBool true)])] in
  let s' := fold_left refresh
              [goodRefresh; [Rejected; Rejected; Rejected];
               [Fulfilled d1; Fulfilled d2; Fulfilled d3]]
              initialState in
  techniques s' = VArr [VObj [("id", VNum 1)]; VObj [("id", VNum 2)]] /\
  attackPlans s' = VArr [VObj [("id", VNum 7)]] /\
  safetyConfig s' = VObj [("emergency_stop_enabled", VBool true)].
Proof.
  intros d1 d2 d3.
  apply (refresh_stores_latest_payload initialState
           [goodRefresh; [Rejected; Rejected; Rejected]] d1 d2 d3);
    reflexivity.
Defined.

Lemma write_operation_instance :
  let o := LearnFromUrl egnyteUrl in
  let out := Fulfilled (VObj [("techniques", VArr [VNull; VNull])]) in
  let p1 := start initialPage o in
  let p2 := settle initialPage p1 [out] in
  isWrite o = true /\
  exists es,
    history p2 = history p1 ++ es /\
    existsb setsError es = false /\
    dispatched es = refreshRequests.
Proof.
  intros o out p1 p2. split; [reflexivity|].
  destruct (write_operation_refreshes_once initialPage o out eq_refl)
    as (es & H1 & H2 & _ & _ & H5 & _).
  exists es.
  assert (E : existsb setsError es = false).
  { apply (H5 _ eq_refl). eexists. reflexivity. }
  rewrite E in H2. repeat split; assumption.
Defined.

Lemma refresh_all_or_nothing_instance :
  let outs := [Fulfilled (VObj [("techniques", VArr [VNull])]); Rejected;
               Fulfilled (VObj [("safety_config", VObj [])])] in
  let p2 := settle initialPage (start initialPage Refresh) outs in
  (List.length outs = 3%nat /\ In Rejected outs) /\
  slices (store p2) = slices (store initialPage).
Proof.
  intros outs p2. split; [split; [reflexivity | right; left; reflexivity]|].
  apply (refresh_writes_only_when_all_fetches_succeed initialPage outs eq_refl).
  right. left. reflexivity.
Defined.

End Instances.

(* ================================================================== *)
(** ** Invariants of a session *)
(* ================================================================== *)

Section Invariants.

Variable ok : effect -> bool.
Variable inv : State -> Prop.

Hypothesis apply_inv : forall s e, ok e = true -> inv s -> inv (apply s e).
Hypothesis handlers_ok : forall c, emits_only ok (handler c).

Lemma applyAll_inv (es : list effect) (s : State) :
  Forall (fun e => ok e = true) es -> inv s -> inv (applyAll s es).
Proof.
  intros H. revert s. induction H as [|e es He Hes IH]; intros s Hs; cbn.
  - exact Hs.
  - apply IH. now apply apply_inv.
Qed.

Lemma step_inv (p : Page) (i : input) :
  page_ok ok p -> inv (store p) -> inv (store (step p i)).
Proof.
  intros [Hh Hw] Hs. destruct i as [c | n outs]; cbn.
  - apply applyAll_inv; [|exact Hs].
    apply run_sync_emits_only, handlers_ok.
  - destruct (nth_error (inflight p) n) as [w|] eqn:Hn; [|exact Hs].
    destruct (Nat.eqb _ _); [|exact Hs].
    cbn. apply applyAll_inv; [|exact Hs].
    apply run_sync_emits_only.
    apply nth_error_In in Hn. rewrite Forall_forall in Hw. now apply Hw.
Qed.

Lemma steps_inv (ins : list input) (p : Page) :
  page_ok ok p -> inv (store p) -> inv (store (steps p ins)).
Proof.
  revert p. induction ins as [|i ins IH]; intros p Hp Hs; cbn; [exact Hs|].
  apply IH.
  - now apply step_page_ok.
  - now apply step_inv.
Qed.

Lemma session_inv (ins : list input) :
  inv initialState ->
  inv (store (steps initialPage ins)) /\
  Forall (fun e => ok e = true) (history (steps initialPage ins)).
Proof.
  intros H0.
  assert (Hp : page_ok ok initialPage) by (split; constructor).
  split.
  - now apply steps_inv.
  - now apply (steps_page_ok handlers_ok ins Hp).
Qed.

End Invariants.

Lemma dispatched_Forall (P : request -> Prop) (es : list effect) :
  Forall (fun e => match e with Dispatch r => P r | _ => True end) es ->
  Forall P (dispatched es).
Proof.
  induction 1 as [|e es He Hes IH]; cbn; [constructor|].
  destruct e; try exact IH. now constructor.
Qed.

(* ================================================================== *)
(** ** Empty URL input *)
(* ================================================================== *)

Section EmptyUrl.

Lemma learnFromUrl_sends_its_url (url : string) :
  truthy (VStr url) = true -> emits_only sendsNoEmptyUrl (learnFromUrl url).
Proof.
  intros E. cbn in E. unfold learnFromUrl, try_catch_finally, await.
  apply eo_do; [reflexivity|].
  apply emits_only_try_finally; [|emits].
  apply emits_only_try_catch; [|emits].
  apply eo_await; [cbn; now rewrite E | intros outs]. emits.
Qed.

Lemma testChatbot_sends_its_url (url : string) (testType : option string) :
  truthy (VStr url) = true ->
  emits_only sendsNoEmptyUrl (testChatbot url testType).
Proof.
  intros E. cbn in E. unfold testChatbot, try_catch_finally, await.
  apply eo_do; [reflexivity|].
  apply emits_only_try_finally; [|emits].
  apply emits_only_try_catch; [|emits].
  apply eo_await; [cbn; now rewrite E | intros outs]. emits.
Qed.

Lemma handlers_send_no_empty_url (c : control) :
  emits_only sendsNoEmptyUrl (handler c).
Proof.
  destruct c as [ | t | [url|] | | name url | v | ]; cbn [handler].
  - emits.
  - emits.
  - destruct (truthy (VStr url)) eqn:E; [|constructor].
    apply eo_fork; [now apply learnFromUrl_sends_its_url | constructor].
  - constructor.
  - apply eo_fork; [now apply learnFromUrl_sends_its_url | constructor].
  - emits.
  - destruct (truthy (VStr v)) eqn:E; [|constructor].
    apply eo_fork; [now apply testChatbot_sends_its_url | constructor].
  - emits.
Qed.

(** C1: an empty url never reaches [learnFromUrl] or [testChatbot].  The
    "Learn from URL" button with an empty or cancelled prompt and the
    "Test Chatbot" button with an empty input field leave the page
    exactly as it was: no request, [loading] as before, nothing
    suspended; with any other text the handler calls the operation.
    And in every session, whatever the user does and however requests
    settle, no request with an empty [url] is handed to axios: what
    [learnFromUrl] or [testChatbot] would post for the empty string is
    never posted. *)
Theorem empty_url_is_never_sent :
  (forall p : Page,
     step p (User (LearnFromUrlButton (Some ""))) = p /\
     step p (User (LearnFromUrlButton None)) = p /\
     step p (User (TestChatbotButton "")) = p) /\
  (forall url,
     handler (LearnFromUrlButton (Some url)) =
     if String.eqb url "" then Ret else Fork (learnFromUrl url) Ret) /\
  (forall url,
     handler (TestChatbotButton url) =
     if String.eqb url "" then Ret else Fork (testChatbot url None) Ret) /\
  (forall ins : list input,
     Forall (fun r => carriesEmptyUrl r = false)
            (dispatched (history (steps initialPage ins)))) /\
  carriesEmptyUrl
    (POST (API_BASE_URL ++ "/api/knowledge/learn/url") (VObj [("url", VStr "")]))
  = true /\
  carriesEmptyUrl
    (POST (API_BASE_URL ++ "/api/attack/chatbot/test")
          (VObj [("url", VStr ""); ("test_type", VStr "basic")]))
  = true.
Proof.
  split; [|split; [|split; [|split; [|split; reflexivity]]]].
  - intros p. repeat split; cbn; apply launch_ret.
  - intros url. cbn. now destruct (String.eqb url "").
  - intros url. cbn. now destruct (String.eqb url "").
  - intros ins.
    assert (H0 : page_ok sendsNoEmptyUrl initialPage) by (split; constructor).
    destruct (steps_page_ok handlers_send_no_empty_url ins H0) as [Hh _].
    apply dispatched_Forall.
    eapply Forall_impl; [|exact Hh].
    intros e He. destruct e; try exact I.
    cbn in He. now apply negb_true_iff in He.
Qed.

End EmptyUrl.

Section Soundness.

Lemma truthy_or_else (a b : value) :
  truthy b = true -> truthy (or_else a b) = true.
Proof.
  intros Hb. unfold or_else. destruct (truthy a) eqn:E; [exact E | exact Hb].
Qed.

Lemma or_else_null (a : value) :
  truthy (or_else a VNull) || isNull (or_else a VNull) = true.
Proof.
  unfold or_else. destruct (truthy a) eqn:E; [now rewrite E | reflexivity].
Qed.

Lemma refresh_sound : emits_only sound loadDashboardData.
Proof.
  unfold loadDashboardData, try_catch_finally, await_all3.
  apply eo_do; [reflexivity|].
  apply emits_only_try_finally; [|emits].
  apply emits_only_try_catch; [|emits].
  apply eo_await; [reflexivity|]. intros outs.
  repeat match goal with
         | |- emits_only _ (match ?x with _ => _ end) => destruct x
         end; try apply eo_throw.
  unfold read.
  repeat first
    [ apply eo_ret | apply eo_throw
    | apply eo_do;
      [first [ apply truthy_or_else; reflexivity | apply or_else_null ]|]
    | match goal with
      | |- emits_only _ (match ?x with _ => _ end) => destruct x
      end ].
Qed.

Lemma handlers_sound (c : control) : emits_only sound (handler c).
Proof.
  pose proof refresh_sound as R.
  destruct c as [ | t | [url|] | | name url | v | ]; cbn [handler];
    try match goal with |- context [if ?b then _ else _] => destruct b end;
    try (destruct t; emits);
    repeat first
      [ assumption
      | apply eo_ret
      | apply eo_throw
      | apply eo_do; [reflexivity|]
      | apply eo_fork
      | apply eo_await; [reflexivity | intros ?]
      | apply emits_only_try_finally
      | apply emits_only_try_catch
      | match goal with
        | |- emits_only _ (match ?x with _ => _ end) => destruct x
        end
      | progress unfold learnFromUrl, createAttackPlan, testChatbot,
                        emergencyStop, try_catch_finally, await, read,
                        interpolate
      | progress cbn beta ].
Qed.

Lemma apply_wellFormed (s : State) (e : effect) :
  sound e = true -> wellFormed s -> wellFormed (apply s e).
Proof.
  intros He (Ht & Hk & Hp & Hc & Hm).
  destruct e as [t|v|v|v|b|[m|]|txt| |r]; cbn in He |- *;
    unfold wellFormed; cbn; try (repeat split; assumption).
  - repeat split; try assumption.
    apply orb_true_iff in He. destruct He as [He|He]; [now right|].
    left. now destruct v.
  - repeat split; try assumption. right. now exists m.
  - discriminate He.
Qed.

Lemma initialState_wellFormed : wellFormed initialState.
Proof.
  unfold wellFormed. cbn. repeat split; auto.
Qed.

(** X1: In every session, whatever the user does and whatever the backend
    answers, techniques and attackPlans hold a truthy value, so reading
    their [length] never throws, and safetyConfig holds [null] or a
    truthy value. *)
Theorem collections_never_nullish (ins : list input) :
  let s := store (steps initialPage ins) in
  truthy (techniques s) = true /\
  truthy (attackPlans s) = true /\
  (safetyConfig s = VNull \/ truthy (safetyConfig s) = true) /\
  isSome (get (techniques s) "length") = true /\
  isSome (get (attackPlans s) "length") = true.
Proof.
  intros s.
  destruct (@session_inv sound wellFormed apply_wellFormed
              handlers_sound ins initialState_wellFormed) as [(_ & Hk & Hp & Hc & _) _].
  fold s in Hk, Hp, Hc.
  repeat split; try assumption.
  - destruct (techniques s); cbn in *; congruence.
  - destruct (attackPlans s); cbn in *; congruence.
Qed.

(** X2: In every session the error cell holds [null] or one of the five
    failure messages of the catch blocks; these are non-empty, so the
    cell is truthy exactly when it is not [null]. *)
Theorem error_is_null_or_a_failure_message (ins : list input) :
  let s := store (steps initialPage ins) in
  (error s = None \/ exists o, error s = Some (failureMessage o)) /\
  truthy (errorValue s) = isSome (error s).
Proof.
  intros s.
  destruct (@session_inv sound wellFormed apply_wellFormed
              handlers_sound ins initialState_wellFormed) as [(_ & _ & _ & _ & Hm) _].
  fold s in Hm.
  assert (H : error s = None \/ exists o, error s = Some (failureMessage o)).
  { destruct Hm as [Hm | (m & Hm & Hin)]; [now left|]. right.
    unfold oneOf, failureMessages in Hin. cbn [existsb] in Hin.
    repeat (apply orb_true_iff in Hin; destruct Hin as [Hin|Hin]);
      try discriminate Hin; apply String.eqb_eq in Hin; subst m.
    - now exists Refresh.
    - now exists (LearnFromUrl "").
    - now exists (CreateAttackPlan VNull []).
    - now exists (TestChatbot "" None).
    - now exists EmergencyStop. }
  split; [exact H|].
  unfold errorValue.
  destruct H as [H | (o & H)]; rewrite H; [reflexivity | now destruct o].
Qed.

(** X3: In every session the active view is one of the four tabs. *)
Theorem active_view_is_a_tab (ins : list input) :
  exists t, activeTab (store (steps initialPage ins)) = tabName t.
Proof.
  destruct (@session_inv sound wellFormed apply_wellFormed
              handlers_sound ins initialState_wellFormed) as [(Ht & _) _].
  unfold oneOf, tabNames in Ht. cbn [existsb] in Ht.
  repeat (apply orb_true_iff in Ht; destruct Ht as [Ht|Ht]);
    try discriminate Ht; apply String.eqb_eq in Ht.
  - now exists dashboard.
  - now exists knowledge.
  - now exists attack.
  - now exists safety.
Qed.

(** X4: In every session, every URL that [App] hands to axios is one of
    seven constants on [API_BASE_URL]: a GET names one of the three read
    endpoints and a POST one of the four write endpoints.  What the user
    types travels in the body of a request, never in its URL.  (Where
    the HTTP client goes from there, after a redirect for instance, is
    outside [App].) *)
Theorem requests_only_to_known_endpoints (ins : list input) :
  Forall (fun r =>
            match r with
            | GET url => In url fetchEndpoints
            | POST url _ => In url postEndpoints
            end)
         (dispatched (history (steps initialPage ins))).
Proof.
  destruct (@session_inv sound wellFormed apply_wellFormed
              handlers_sound ins initialState_wellFormed) as [_ Hh].
  apply dispatched_Forall.
  eapply Forall_impl; [|exact Hh].
  intros e He. destruct e as [ | | | | | | | |r]; try exact I.
  cbn in He. destruct r as [url | url b]; unfold oneOf in He;
    apply existsb_exists in He; destruct He as (x & Hin & Hx);
    apply String.eqb_eq in Hx; now subst x.
Qed.

End Soundness.

(* ================================================================== *)
(** ** Edge cases of the operations *)
(* ================================================================== *)

Section OperationEdges.

Lemma get_none_iff (v : value) (key : string) :
  get v key = None <-> nullish v = true.
Proof. destruct v; cbn; split; intros H; try reflexivity; discriminate H. Qed.

Lemma get_nullish (v : value) (key : string) :
  nullish v = true -> get v key = None.
Proof. apply get_none_iff. Qed.

Lemma get_optGet (v : value) (key : string) :
  nullish v = false -> get v key = Some (optGet v key).
Proof.
  intros H. unfold optGet. destruct (get v key) eqn:E; [reflexivity|].
  apply get_none_iff in E. congruence.
Qed.

Lemma optGet_some (v : value) (key : string) (x : value) :
  get v key = Some x -> optGet v key = x.
Proof. intros H. unfold optGet. now rewrite H. Qed.

Lemma prompt_or_empty (answer : option string) :
  or_else (promptValue answer) (VStr "") =
  VStr (match answer with Some text => text | None => "" end).
Proof.
  destruct answer as [text|]; [|reflexivity].
  unfold or_else. cbn. destruct (String.eqb text "") eqn:E; cbn; [|reflexivity].
  apply String.eqb_eq in E. now subst text.
Qed.

(** X5: The "Create Attack Plan" button does not validate its prompts: for
    every pair of answers, cancelled or empty ones included, it sets
    [loading] and posts exactly one plan, whose target carries the typed
    name and url (the empty string for a cancelled prompt), the type
    [web_application] and the two fixed objectives. *)
Theorem create_attack_plan_button_always_posts
        (p : Page) (name url : option string) :
  let text (answer : option string) :=
    match answer with Some t => t | None => "" end in
  let p1 := step p (User (CreateAttackPlanButton name url)) in
  loading (store p1) = true /\
  history p1 =
    history p ++
    [SetLoading true;
     Dispatch
       (POST "http://localhost:5000/api/attack/plan"
          (VObj [("target",
                  VObj [("name", VStr (text name)); ("url", VStr (text url));
                        ("type", VStr "web_application")]);
                 ("objectives",
                  VArr [VStr "Identify vulnerabilities";
                        VStr "Test security controls"])]))] /\
  List.length (inflight p1) = S (List.length (inflight p)).
Proof.
  intros text p1. subst text p1.
  unfold step. cbn [handler]. rewrite !prompt_or_empty, launch_fork_ret.
  unfold launch. cbn. rewrite length_app. cbn.
  repeat split; try reflexivity. apply Nat.add_1_r.
Qed.

(** X6: [learnFromUrl] with a fulfilled request succeeds exactly when the
    response body and its [techniques] field are neither [null] nor
    [undefined] and the [length] of that field can be converted to a
    string: then it alerts that [length] and starts the refresh;
    otherwise evaluating the alert text throws, and although the backend
    accepted the request the operation ends with its failure message
    and without a refresh. *)
Theorem learn_from_url_needs_techniques_in_response
        (p : Page) (url : string) (data : value) :
  let learned := optGet data "techniques" in
  let shown := optGet learned "length" in
  let p2 := settle p (start p (LearnFromUrl url)) [Fulfilled data] in
  (nullish data = false /\ nullish learned = false /\ convertible shown = true ->
     error (store p2) = error (store p) /\
     map (@awaited) (inflight p2) = map (@awaited) (inflight p) ++ [refreshRequests] /\
     In (Alert [Lit "Successfully learned "; Hole shown; Lit " new techniques!"])
        (history p2)) /\
  (nullish data = true \/ nullish learned = true \/ convertible shown = false ->
     error (store p2) = Some "Failed to learn from URL" /\
     inflight p2 = inflight p /\
     existsb isFetch (history p2) = existsb isFetch (history p)).
Proof.
  intros learned shown p2. subst learned shown p2.
  settle_op (eq_refl 1%nat). unfold launch.
  split.
  - intros (Hd & Hl & Hc).
    cbn -[get]. unfold read.
    rewrite (get_optGet _ "techniques" Hd). cbn -[get].
    rewrite (get_optGet _ "length" Hl). unfold interpolate. rewrite Hc.
    cbn -[get optGet].
    rewrite map_app. repeat split; try reflexivity.
    apply in_or_app. right. cbn. tauto.
  - intros H.
    assert (E : (let! learned := read data "techniques" in
                 let! n := read learned "length" in
                 let! shown := interpolate n in
                 Alert [Lit "Successfully learned "; shown; Lit " new techniques!"] ;;
                 Fork loadDashboardData Ret) = Throw).
    { unfold read, interpolate.
      destruct (nullish data) eqn:Hd.
      { now rewrite (get_nullish _ "techniques" Hd). }
      rewrite (get_optGet _ "techniques" Hd).
      destruct (nullish (optGet data "techniques")) eqn:Hl.
      { now rewrite (get_nullish _ "length" Hl). }
      rewrite (get_optGet _ "length" Hl).
      destruct H as [H|[H|H]]; try discriminate H. now rewrite H. }
    cbn -[get read interpolate]. rewrite E. cbn.
    rewrite !app_nil_r, !existsb_app. cbn. rewrite !orb_false_r.
    repeat split; reflexivity.
Qed.

(** X7: [testChatbot] with a fulfilled request shows its result exactly when
    the response body, its [results], and there [vulnerabilities_found]
    and [test_summary], are neither [null] nor [undefined], and the
    length of the one and the [risk_level] of the other can be converted
    to a string; otherwise evaluating the alert text throws and the
    operation ends in its failure message, without an alert. *)
Theorem test_chatbot_needs_complete_results
        (p : Page) (url : string) (testType : option string) (data : value) :
  let results := optGet data "results" in
  let found := optGet results "vulnerabilities_found" in
  let summary := optGet results "test_summary" in
  let complete :=
    negb (nullish data) && negb (nullish results) &&
    negb (nullish found) && convertible (optGet found "length") &&
    negb (nullish summary) && convertible (optGet summary "risk_level") in
  let p2 := settle p (start p (TestChatbot url testType)) [Fulfilled data] in
  error (store p2) =
    (if complete then error (store p) else Some "Failed to test chatbot") /\
  existsb (fun e =>
             match e with
             | Alert _ => true
             | _ => false
             end)
          (skipn (List.length (history p)) (history p2)) = complete /\
  (complete = true ->
     In (Alert [Lit "Chatbot test completed!"; Lit newline;
                Lit "Vulnerabilities found: "; Hole (optGet found "length");
                Lit newline; Lit "Risk level: ";
                Hole (optGet summary "risk_level")])
        (history p2)).
Proof.
  intros results found summary complete p2.
  subst results found summary complete p2.
  settle_op (eq_refl 1%nat). unfold launch. cbn -[get].
  rewrite <- !app_assoc, !skipn_app, !skipn_all, Nat.sub_diag. cbn -[get].
  unfold read, interpolate.
  destruct (nullish data) eqn:Hd.
  { rewrite (get_nullish _ "results" Hd). cbn.
    repeat split; try reflexivity. discriminate. }
  rewrite (get_optGet _ "results" Hd). cbn -[get optGet convertible].
  destruct (nullish (optGet data "results")) eqn:Hr.
  { rewrite (get_nullish _ "vulnerabilities_found" Hr). cbn.
    repeat split; try reflexivity. discriminate. }
  rewrite (get_optGet _ "vulnerabilities_found" Hr). cbn -[get optGet convertible].
  destruct (nullish (optGet (optGet data "results") "vulnerabilities_found")) eqn:Hf.
  { rewrite (get_nullish _ "length" Hf). cbn.
    repeat split; try reflexivity. discriminate. }
  rewrite (get_optGet _ "length" Hf). cbn -[get optGet convertible].
  destruct (convertible
              (optGet (optGet (optGet data "results") "vulnerabilities_found")
                      "length")) eqn:Hc.
  2: { cbn. repeat split; try reflexivity. discriminate. }
  cbn -[get optGet convertible].
  rewrite (get_optGet _ "test_summary" Hr). cbn -[get optGet convertible].
  destruct (nullish (optGet (optGet data "results") "test_summary")) eqn:Hs.
  { rewrite (get_nullish _ "risk_level" Hs). cbn.
    repeat split; try reflexivity. discriminate. }
  rewrite (get_optGet _ "risk_level" Hs). cbn -[get optGet convertible].
  destruct (convertible
              (optGet (optGet (optGet data "results") "test_summary")
                      "risk_level")) eqn:Hk.
  2: { cbn. repeat split; try reflexivity. discriminate. }
  cbn -[get optGet convertible].
  repeat split; try reflexivity.
  intros _. apply in_or_app. right. cbn. tauto.
Qed.

End OperationEdges.

(* ================================================================== *)
(** ** Operations that fail *)
(* ================================================================== *)

Section FailedOperations.

Lemma pendingOf_arity (o : operation) (w : pending) :
  pendingOf o = Some w -> List.length (awaited w) = arity o.
Proof.
  destruct o; unfold pendingOf; cbn; intros H; injection H as <-; reflexivity.
Qed.

(** C4, amended: whenever an operation ends in its catch block, whether
    its request was rejected or a fulfilled response could not be read,
    and whatever else is in flight, techniques, attackPlans and
    safetyConfig keep their prior values, no slice is written at all,
    [error] is the operation's message and the operation leaves nothing
    suspended; [loading] is then false for refresh, learnFromUrl,
    createAttackPlan and testChatbot, and as it was for emergencyStop.
    Left aside is the refresh that has stored the techniques before
    reading its second or third response throws. *)
Theorem failed_operation_leaves_slices
        (q : Page) (n : nat) (o : operation) (w : pending) (outs : list outcome) :
  pendingOf o = Some w ->
  nth_error (inflight q) n = Some w ->
  List.length outs = arity o ->
  endsFailed o outs = true ->
  storesBeforeReadingAll o outs = false ->
  let q2 := step q (Settle n outs) in
  slices (store q2) = slices (store q) /\
  activeTab (store q2) = activeTab (store q) /\
  error (store q2) = Some (failureMessage o) /\
  loading (store q2) =
    match o with EmergencyStop => loading (store q) | _ => false end /\
  inflight q2 = remove_nth n (inflight q) /\
  exists es, history q2 = history q ++ es /\ existsb writesSlice es = false.
Proof.
  intros Hw Hn Hlen Hf Hs q2. subst q2.
  pose proof (pendingOf_arity _ Hw) as Ha.
  unfold step. rewrite Hn, Ha, <- Hlen, Nat.eqb_refl.
  unfold endsFailed, settledEffects in Hf. rewrite Hw in Hf.
  unfold launch. cbn [store inflight history].
  revert Hf Hs.
  destruct o; unfold pendingOf in Hw; cbn in Hw; injection Hw as <-;
    cbn [arity] in Hlen;
    [three_outcomes outs Hlen | one_outcome outs Hlen ..];
    exec; intros Hf Hs; try discriminate Hf;
    try (apply negb_false_iff in Hs;
         match goal with
         | H : get ?d _ = Some _ |- _ =>
             rewrite (get_nullish d _ Hs) in H; discriminate H
         end);
    rewrite ?app_nil_r;
    repeat split; try reflexivity;
    eexists; (split; [reflexivity | reflexivity]).
Qed.

End FailedOperations.

(* ================================================================== *)
(** ** Operations and user actions that overlap *)
(* ================================================================== *)

Section Overlap.

Variable ok : effect -> bool.

Hypothesis suspended_ok :
  forall c, Forall (fun w => forall outs, emits_only ok (resume w outs))
                   (snd (run_sync (handler c))).

Lemma step_inflight_ok (p : Page) (i : input) :
  inflight_ok ok p -> inflight_ok ok (step p i).
Proof.
  unfold inflight_ok. intros Hp. destruct i as [c | n outs]; cbn.
  - apply Forall_app. split; [exact Hp | apply suspended_ok].
  - destruct (nth_error (inflight p) n) as [w|] eqn:Hn; [|exact Hp].
    destruct (Nat.eqb _ _); [|exact Hp].
    cbn. apply Forall_app. split.
    + now apply Forall_remove_nth.
    + apply run_sync_emits_only.
      apply nth_error_In in Hn. rewrite Forall_forall in Hp. now apply Hp.
Qed.

Lemma steps_inflight_ok (ins : list input) (p : Page) :
  inflight_ok ok p -> inflight_ok ok (steps p ins).
Proof.
  revert p. induction ins as [|i ins IH]; intros p Hp; cbn; [exact Hp|].
  apply IH. now apply step_inflight_ok.
Qed.

End Overlap.

Section ViewAndResponses.

Lemma operations_keep_tab (o : operation) : emits_only keepsTab (body o).
Proof. destruct o; cbn [body]; emits. Qed.

Lemma suspended_keep_tab (c : control) :
  Forall (fun w => forall outs, emits_only keepsTab (resume w outs))
         (snd (run_sync (handler c))).
Proof.
  destruct c as [ | t | [url|] | | name url | v | ]; cbn [handler];
    try match goal with |- context [if ?b then _ else _] => destruct b end;
    first [ solve [cbn; constructor] | apply run_sync_emits_only; emits ].
Qed.

Lemma apply_tab_commutes (s : State) (t : string) (e : effect) :
  keepsTab e = true ->
  apply (apply s (SetActiveTab t)) e = apply (apply s e) (SetActiveTab t).
Proof. destruct e; cbn; intros H; try reflexivity; discriminate H. Qed.

Lemma applyAll_tab_commutes (es : list effect) (s : State) (t : string) :
  Forall (fun e => keepsTab e = true) es ->
  applyAll (apply s (SetActiveTab t)) es = apply (applyAll s es) (SetActiveTab t).
Proof.
  intros H. revert s. unfold applyAll.
  induction H as [|e es He Hes IH]; intros s; cbn [fold_left].
  - reflexivity.
  - rewrite apply_tab_commutes by exact He. apply IH.
Qed.

Lemma applyAll_keeps_tab (es : list effect) (s : State) :
  Forall (fun e => keepsTab e = true) es ->
  activeTab (applyAll s es) = activeTab s.
Proof.
  intros H. revert s. unfold applyAll.
  induction H as [|e es He Hes IH]; intros s; cbn [fold_left].
  - reflexivity.
  - rewrite IH. destruct e; cbn; try reflexivity. discriminate He.
Qed.

Lemma step_nav (p : Page) (t : Tab) :
  step p (User (NavButton t)) =
  mkPage (apply (store p) (SetActiveTab (tabName t)))
         (inflight p)
         (history p ++ [SetActiveTab (tabName t)]).
Proof. unfold step, launch. cbn. now rewrite app_nil_r. Qed.

(** X8: In every session, a response never switches the view, and it does
    not matter whether the user presses a navigation button before or
    after a response arrives: the state and the functions left in flight
    are the same.  A view switch neither cancels nor disturbs a pending
    operation. *)
Theorem view_switch_commutes_with_response
        (ins : list input) (n : nat) (outs : list outcome) (t : Tab) :
  let p := steps initialPage ins in
  activeTab (store (step p (Settle n outs))) = activeTab (store p) /\
  store (step (step p (User (NavButton t))) (Settle n outs)) =
  store (step (step p (Settle n outs)) (User (NavButton t))) /\
  inflight (step (step p (User (NavButton t))) (Settle n outs)) =
  inflight (step (step p (Settle n outs)) (User (NavButton t))).
Proof.
  intros p.
  assert (Hp : inflight_ok keepsTab p).
  { apply steps_inflight_ok; [apply suspended_keep_tab | constructor]. }
  rewrite !step_nav. unfold step. cbn [inflight store history].
  destruct (nth_error (inflight p) n) as [w|] eqn:Hn.
  2: { repeat split; reflexivity. }
  destruct (Nat.eqb _ _).
  2: { repeat split; reflexivity. }
  assert (Hw : Forall (fun e => keepsTab e = true)
                      (fst (run_sync (resume w outs)))).
  { apply run_sync_emits_only.
    apply nth_error_In in Hn. unfold inflight_ok in Hp.
    rewrite Forall_forall in Hp. now apply Hp. }
  unfold launch. cbn [inflight store history].
  repeat split.
  - now apply applyAll_keeps_tab.
  - now apply applyAll_tab_commutes.
Qed.

(** X9: The loading flag is shared: when two operations overlap, the first
    one to settle clears [loading] although the request of the other is
    still in flight. *)
Theorem first_to_settle_clears_loading
        (p : Page) (o1 o2 : operation) (outs : list outcome) :
  o1 <> EmergencyStop ->
  List.length outs = arity o1 ->
  let p1 := launch (start p o1) (body o2) in
  let p2 := settle p p1 outs in
  loading (store p2) = false /\
  exists w, snd (run_sync (body o2)) = [w] /\ In w (inflight p2).
Proof.
  intros Hne Hlen p1 p2.
  assert (H2 : exists w, snd (run_sync (body o2)) = [w]).
  { destruct o2; cbn; eexists; reflexivity. }
  destruct H2 as (w2 & Hw2).
  assert (H1 : exists w1,
             snd (run_sync (body o1)) = [w1] /\
             List.length (awaited w1) = arity o1 /\
             forall s, loading (applyAll s (fst (run_sync (resume w1 outs)))) = false).
  { destruct o1; try (now elim Hne); cbn [arity] in Hlen;
      (eexists; split; [cbn; reflexivity|]; split; [reflexivity|]);
      intros s; cbn [resume];
      [three_outcomes outs Hlen | one_outcome outs Hlen ..];
      exec; reflexivity. }
  destruct H1 as (w1 & Hw1 & Ha & Hl).
  subst p2 p1. unfold settle, step, start, launch.
  cbn [inflight store history].
  rewrite Hw1, Hw2, <- app_assoc. cbn [app].
  rewrite nth_error_last, remove_nth_last, Ha.
  rewrite <- Hlen, Nat.eqb_refl. cbn [inflight store history].
  split; [apply Hl|].
  exists w2. split; [reflexivity|].
  apply in_or_app. left. apply in_or_app. right. now left.
Qed.

End ViewAndResponses.

(* ================================================================== *)
(** ** The views *)
(* ================================================================== *)

Section Traversals.

Context {A B : Type}.

Lemma mapM_length (f : A -> option B) (l : list A) (ys : list B) :
  mapM f l = Some ys -> List.length ys = List.length l.
Proof.
  revert ys. induction l as [|x l IH]; intros ys H; cbn in H.
  - now injection H as <-.
  - destruct (f x); [|discriminate H].
    destruct (mapM f l) as [zs|]; [|discriminate H].
    injection H as <-. cbn. f_equal. now apply IH.
Qed.

Lemma mapM_isSome (f : A -> option B) (g : A -> bool) (l : list A) :
  (forall x, isSome (f x) = g x) ->
  isSome (mapM f l) = forallb g l.
Proof.
  intros Hfg. induction l as [|x l IH]; cbn; [reflexivity|].
  rewrite <- Hfg, <- IH.
  destruct (f x); [|reflexivity]. now destruct (mapM f l).
Qed.

Lemma mapM_Forall2 (f : A -> option B) (l : list A) (ys : list B) :
  mapM f l = Some ys -> Forall2 (fun x y => f x = Some y) l ys.
Proof.
  revert ys. induction l as [|x l IH]; intros ys H; cbn in H.
  - injection H as <-. constructor.
  - destruct (f x) eqn:E; [|discriminate H].
    destruct (mapM f l) as [zs|]; [|discriminate H].
    injection H as <-. constructor; auto.
Qed.

Lemma mapiM_Forall (f : A -> nat -> option B) (P : B -> Prop) (l : list A) :
  (forall x i y, f x i = Some y -> P y) ->
  forall i ys, mapiM f i l = Some ys -> Forall P ys.
Proof.
  intros Hf. induction l as [|x l IH]; intros i ys H; cbn in H.
  - injection H as <-. constructor.
  - destruct (f x i) eqn:E; [|discriminate H].
    destruct (mapiM f (S i) l) as [zs|] eqn:E'; [|discriminate H].
    injection H as <-. constructor; eauto.
Qed.

End Traversals.

Section Queries.

Context {X : Type}.
Variable q : node -> list X.

Lemma flat_map_nil (ys : list node) :
  Forall (fun y => q y = []) ys -> flat_map q ys = [].
Proof.
  induction 1 as [|y ys Hy Hys IH]; cbn; [reflexivity|].
  now rewrite Hy, IH.
Qed.

Lemma flat_map_self (g : node -> X) (ys : list node) :
  Forall (fun y => q y = [g y]) ys -> flat_map q ys = map g ys.
Proof.
  induction 1 as [|y ys Hy Hys IH]; cbn; [reflexivity|].
  now rewrite Hy, IH.
Qed.

Lemma Forall2_right {A : Type} (R : A -> node -> Prop) (P : node -> Prop)
      (l : list A) (ys : list node) :
  (forall x y, R x y -> P y) -> Forall2 R l ys -> Forall P ys.
Proof.
  intros H. induction 1; constructor; eauto.
Qed.

End Queries.

(** Split a successful evaluation [H : ... = Some y] into the reads it
    made. *)
Ltac reads H :=
  unfold oread, obind, okey, ointerpolate, odate in H;
  repeat match type of H with
         | match ?x with Some _ => _ | None => _ end = Some _ =>
             let E := fresh "E" in
             destruct x eqn:E; [|discriminate H]
         | (if ?b then _ else _) = Some _ =>
             let E := fresh "E" in
             destruct b eqn:E; [|discriminate H]
         end;
  try (injection H as <-).

(** Replace [optGet t key] by the value a successful read found. *)
Ltac found_reads :=
  repeat match goal with
         | H : get ?t ?k = Some ?v |- context [optGet ?t ?k] =>
             rewrite (@optGet_some t k v H)
         end.

(** Decide a goal [forall c, In c [c1; ...; cn] -> P c] case by case. *)
Ltac each_class :=
  let c := fresh "c" in
  let Hc := fresh "Hc" in
  intros c Hc; cbn [In] in Hc;
  repeat (destruct Hc as [<-|Hc]; [reflexivity|]);
  contradiction.

Section Dashboard.

Lemma techniqueItem_isSome (t : value) :
  isSome (techniqueItem t) = drawableEntry t.
Proof.
  unfold drawableEntry.
  destruct (nullish t) eqn:Hn.
  { unfold techniqueItem, oread. now rewrite (get_nullish _ "id" Hn). }
  unfold techniqueItem, oread, okey, ointerpolate.
  rewrite !(get_optGet _ _ Hn). cbn [negb andb].
  destruct (convertible (optGet t "id"));
    destruct (convertible (optGet t "category")); reflexivity.
Qed.

Lemma techniqueItem_facts (t : value) (y : node) :
  techniqueItem t = Some y ->
  (forall c, In c ["stat-number"; "stat-status"; "app-main"; "active"; "loading"; "error"] ->
             byClass c y = []) /\
  byClass "technique-item" y = [y] /\
  buttons y = [] /\
  keyOf y = Some (optGet t "id").
Proof.
  intros H. unfold techniqueItem in H. reads H. found_reads.
  split; [each_class|]. repeat split; reflexivity.
Qed.

Lemma recent_items (ts : list value) (items : list node) :
  mapM techniqueItem ts = Some items ->
  (forall c, In c ["stat-number"; "stat-status"; "app-main"; "active"; "loading"; "error"] ->
             flat_map (byClass c) items = []) /\
  flat_map (byClass "technique-item") items = items /\
  flat_map buttons items = [] /\
  map keyOf items = map (fun t => Some (optGet t "id")) ts.
Proof.
  intros H. apply mapM_Forall2 in H.
  repeat split.
  - intros c Hc. apply flat_map_nil.
    eapply Forall2_right; [|exact H].
    cbn beta. intros x y Hxy. now apply (techniqueItem_facts _ Hxy).
  - rewrite <- (map_id items) at 2. apply flat_map_self.
    eapply Forall2_right; [|exact H].
    cbn beta. intros x y Hxy. now apply (techniqueItem_facts _ Hxy).
  - apply flat_map_nil.
    eapply Forall2_right; [|exact H].
    cbn beta. intros x y Hxy. now apply (techniqueItem_facts _ Hxy).
  - induction H as [|x y l l' Hxy Hl IH]; cbn; [reflexivity|].
    f_equal; [|exact IH]. now apply (techniqueItem_facts _ Hxy).
Qed.

(** What [renderDashboard] returns on arrays: the frame around the
    entries of the first five techniques. *)
Lemma dashboard_tree (s : State) (ts ps : list value) (tree : node) :
  techniques s = VArr ts ->
  attackPlans s = VArr ps ->
  renderDashboard s = Some tree ->
  exists items,
    mapM techniqueItem (firstn 5 ts) = Some items /\
    byClass "stat-number" tree =
      [el "p" "stat-number" [Expr (VNum (Z.of_nat (List.length ts)))];
       el "p" "stat-number" [Expr (VNum (Z.of_nat (List.length ps)))]] /\
    byClass "stat-status" tree =
      [el "p" "stat-status"
          [Expr (VStr (if truthy (optGet (safetyConfig s) "emergency_stop_enabled")
                       then "Active" else "Inactive"))];
       el "p" "stat-status" [Text "Operational"]] /\
    byClass "technique-item" tree = items /\
    buttons tree = [].
Proof.
  intros Ht Hp H. unfold renderDashboard in H. rewrite Ht, Hp in H.
  cbn -[firstn mapM] in H.
  destruct (mapM techniqueItem (firstn 5 ts)) as [items|] eqn:E;
    [|discriminate H].
  cbn in H. injection H as <-. exists items.
  destruct (recent_items _ E) as (Hq & Hself & Hb & Hk).
  cbn -[firstn optGet].
  rewrite (Hq "stat-number"), (Hq "stat-status"), Hself, Hb, !app_nil_r
    by (cbn; tauto).
  repeat split; reflexivity.
Qed.

(** X10: The dashboard, when it renders a state whose techniques and plans
    are arrays, shows the number of techniques and the number of plans
    in its two counters, [Active] exactly when the configuration has a
    truthy [emergency_stop_enabled] (so [Inactive] while no
    configuration is loaded), and one entry for each of the first five
    techniques, in order and keyed by [id], never more than five. *)
Theorem dashboard_shows_counts_and_recent_techniques
        (s : State) (ts ps : list value) (tree : node) :
  techniques s = VArr ts ->
  attackPlans s = VArr ps ->
  renderDashboard s = Some tree ->
  byClass "stat-number" tree =
    [el "p" "stat-number" [Expr (VNum (Z.of_nat (List.length ts)))];
     el "p" "stat-number" [Expr (VNum (Z.of_nat (List.length ps)))]] /\
  byClass "stat-status" tree =
    [el "p" "stat-status"
        [Expr (VStr (if truthy (optGet (safetyConfig s) "emergency_stop_enabled")
                     then "Active" else "Inactive"))];
     el "p" "stat-status" [Text "Operational"]] /\
  map keyOf (byClass "technique-item" tree) =
    map (fun t => Some (optGet t "id")) (firstn 5 ts) /\
  List.length (byClass "technique-item" tree) = Nat.min 5 (List.length ts) /\
  buttons tree = [].
Proof.
  intros Ht Hp H.
  destruct (dashboard_tree _ Ht Hp H) as (items & E & Hn & Hs & Hi & Hb).
  destruct (recent_items _ E) as (_ & _ & _ & Hk).
  rewrite Hn, Hs, Hi, Hb.
  repeat split; try reflexivity.
  - exact Hk.
  - rewrite (mapM_length _ _ E). apply length_firstn.
Qed.

(** X11: [renderDashboard] throws exactly when attackPlans is [null] or
    [undefined], or techniques is not an array, or one of its first
    five entries cannot be drawn: it is [null] or [undefined], or its
    [id] (the key of the entry) or its [category] (part of a class
    name) cannot be converted to a string.  Entries after the fifth are
    not looked at. *)
Theorem dashboard_renders_iff (s : State) :
  isSome (renderDashboard s) =
  negb (nullish (attackPlans s)) &&
  match techniques s with
  | VArr ts => forallb drawableEntry (firstn 5 ts)
  | _ => false
  end.
Proof.
  unfold renderDashboard, oread, obind.
  destruct (techniques s) as [| | | | |ts|]; cbn -[firstn];
    rewrite ?andb_false_r; try reflexivity;
    try (now destruct (get (attackPlans s) "length")).
  rewrite <- (mapM_isSome techniqueItem _ (firstn 5 ts) techniqueItem_isSome).
  destruct (attackPlans s); cbn -[firstn]; try reflexivity;
    now destruct (mapM techniqueItem (firstn 5 ts)).
Qed.

End Dashboard.

Section KnowledgeBase.

Lemma tagSpans_render (tags : list value) (i : nat) :
  isSome (mapiM tagSpan i tags) = true.
Proof.
  revert i. induction tags as [|x l IH]; intros i; cbn; [reflexivity|].
  specialize (IH (S i)). now destruct (mapiM tagSpan (S i) l).
Qed.

Lemma tagsBlock_isSome (tags : value) :
  isSome (tagsBlock tags) = drawableTags tags.
Proof.
  unfold tagsBlock, obind, arrayMapi.
  destruct tags as [| |b|n|t|l|fs]; cbn; try reflexivity.
  - now destruct b.
  - now destruct (Z.eqb n 0).
  - now destruct (String.eqb t "").
  - pose proof (tagSpans_render l 0) as H.
    now destruct (mapiM tagSpan 0 l).
Qed.

Lemma techniqueCard_isSome (t : value) :
  isSome (techniqueCard t) = drawableTechnique t.
Proof.
  unfold drawableTechnique.
  destruct (nullish t) eqn:Hn.
  { unfold techniqueCard, oread. now rewrite (get_nullish _ "id" Hn). }
  unfold techniqueCard, oread, obind, okey.
  rewrite !(get_optGet _ _ Hn). cbn [negb andb].
  rewrite <- (tagsBlock_isSome (optGet t "tags")).
  destruct (convertible (optGet t "id")); [|reflexivity].
  destruct (optGet t "severity"); cbn [optToLowerCase andb isSome];
    try reflexivity; now destruct (tagsBlock (optGet t "tags")).
Qed.

(** X12: [renderKnowledgeBase] throws exactly when techniques is not an
    array or holds an entry it cannot draw: one that is [null] or
    [undefined], or whose [id] (the key of the card) cannot be converted
    to a string, or whose [severity] is neither a string nor absent
    (it has no [toLowerCase]), or whose [tags] is truthy without being
    an array. *)
Theorem knowledge_base_renders_iff (s : State) :
  isSome (renderKnowledgeBase s) =
  match techniques s with
  | VArr ts => forallb drawableTechnique ts
  | _ => false
  end.
Proof.
  unfold renderKnowledgeBase, obind, arrayMap.
  destruct (techniques s) as [| | | | |ts|]; cbn; try reflexivity.
  rewrite <- (mapM_isSome techniqueCard _ ts techniqueCard_isSome).
  now destruct (mapM techniqueCard ts).
Qed.

Lemma tagsBlock_facts (tags : value) (n : node) :
  tagsBlock tags = Some n ->
  (forall c, In c ["technique-card"; "severity-badge"; "app-main"; "active"; "loading"; "error"] ->
             byClass c n = []) /\
  buttons n = [].
Proof.
  unfold tagsBlock, obind, arrayMapi. intros H.
  destruct (truthy tags).
  2: { injection H as <-. split; [each_class | reflexivity]. }
  destruct tags as [| | | | |l|]; try discriminate H.
  cbn in H. destruct (mapiM tagSpan 0 l) as [spans|] eqn:E; [|discriminate H].
  cbn in H. injection H as <-.
  assert (Hs : Forall (fun y =>
                         (forall c, In c ["technique-card"; "severity-badge"; "app-main";
                                          "active"; "loading"; "error"] ->
                                    byClass c y = []) /\
                         buttons y = []) spans).
  { eapply mapiM_Forall; [|exact E].
    intros x i y Hy. unfold tagSpan in Hy. injection Hy as <-.
    split; [each_class | reflexivity]. }
  split.
  - intros c Hc. cbn [byClass el].
    assert (Hq : flat_map (byClass c) spans = []).
    { apply flat_map_nil. eapply Forall_impl; [|exact Hs].
      intros y [Hy _]. now apply Hy. }
    cbn [flat_map byClass]. rewrite Hq.
    cbn [In] in Hc.
    repeat (destruct Hc as [<-|Hc]; [reflexivity|]). contradiction.
  - cbn. rewrite app_nil_r. apply flat_map_nil.
    eapply Forall_impl; [|exact Hs]. now intros y [_ Hy].
Qed.

(** The badge of a technique in the knowledge view. *)
Lemma techniqueCard_facts (t : value) (y : node) :
  techniqueCard t = Some y ->
  (forall c, In c ["app-main"; "active"; "loading"; "error"] -> byClass c y = []) /\
  byClass "technique-card" y = [y] /\
  byClass "severity-badge" y =
    [Elem "span"
       [ClassName [Lit "severity-badge ";
                   Hole (match optGet t "severity" with
                         | VStr sev => VStr (toLowerCase sev)
                         | _ => VUndefined
                         end)]]
       [Expr (or_else (optGet t "severity") (VStr "Unknown"))]] /\
  buttons y = [] /\
  keyOf y = Some (optGet t "id").
Proof.
  intros H. unfold techniqueCard in H. reads H. found_reads.
  match goal with
  | Ht : tagsBlock _ = Some _ |- _ => destruct (tagsBlock_facts _ Ht) as [Hq Hb]
  end.
  match goal with
  | Hl : optToLowerCase ?severity = Some ?lowered |- _ =>
      assert (Hlow : lowered = match severity with
                               | VStr sev => VStr (toLowerCase sev)
                               | _ => VUndefined
                               end)
        by (destruct severity; cbn in Hl; try discriminate Hl;
            now injection Hl as <-);
      subst lowered
  end.
  repeat split.
  - intros c Hc. cbn [byClass el flat_map hasClass existsb].
    rewrite (Hq c) by (cbn in Hc |- *; tauto).
    cbn [In] in Hc.
    repeat (destruct Hc as [<-|Hc]; [reflexivity|]). contradiction.
  - cbn -[or_else]. now rewrite (Hq "technique-card") by (cbn; tauto).
  - cbn -[or_else]. now rewrite (Hq "severity-badge") by (cbn; tauto).
  - cbn. now rewrite Hb.
Qed.

(** X13: The knowledge view, when it renders, shows one card for each
    technique, in order and keyed by [id], with a severity badge that
    reads the technique's [severity], or [Unknown] when that is missing
    or empty, and whose class carries the severity in lower case; it
    offers the two "Learn" buttons and nothing else to click. *)
Theorem knowledge_base_shows_every_technique
        (s : State) (ts : list value) (tree : node) :
  techniques s = VArr ts ->
  renderKnowledgeBase s = Some tree ->
  map keyOf (byClass "technique-card" tree) =
    map (fun t => Some (optGet t "id")) ts /\
  byClass "severity-badge" tree =
    map (fun t =>
           Elem "span"
             [ClassName [Lit "severity-badge ";
                         Hole (match optGet t "severity" with
                               | VStr sev => VStr (toLowerCase sev)
                               | _ => VUndefined
                               end)]]
             [Expr (or_else (optGet t "severity") (VStr "Unknown"))]) ts /\
  buttons tree = [LearnFromUrlPrompt; LearnFromEgnyte].
Proof.
  intros Ht H. unfold renderKnowledgeBase, obind, arrayMap in H.
  rewrite Ht in H.
  destruct (mapM techniqueCard ts) as [cards|] eqn:E; [|discriminate H].
  cbn in H. injection H as <-.
  apply mapM_Forall2 in E. clear Ht.
  cbn -[or_else optGet]. rewrite !app_nil_r.
  repeat split.
  - induction E as [|x y l l' Hxy Hl IH]; cbn -[optGet]; [reflexivity|].
    destruct (techniqueCard_facts _ Hxy) as (_ & Hself & _ & _ & Hk).
    rewrite Hself. cbn -[optGet]. now rewrite Hk, IH.
  - induction E as [|x y l l' Hxy Hl IH]; cbn -[optGet or_else]; [reflexivity|].
    destruct (techniqueCard_facts _ Hxy) as (_ & _ & Hbadge & _ & _).
    rewrite Hbadge. cbn -[optGet or_else]. now rewrite IH.
  - assert (Hb : flat_map buttons cards = []).
    { apply flat_map_nil. eapply Forall2_right; [|exact E].
      cbn beta. intros x y Hxy. now apply (techniqueCard_facts _ Hxy). }
    now rewrite Hb.
Qed.

End KnowledgeBase.

Section AttackEngine.

Lemma append_empty (s : string) : (s ++ "")%string = s.
Proof. induction s as [|c s IH]; cbn; congruence. Qed.

(** [join(', ')] of an array of strings is the strings with the
    separator between them. *)
Lemma join_strings (sep : string) (items : list string) :
  flatten (joinChunks sep (map VStr items)) = Some (String.concat sep items).
Proof.
  induction items as [|x [|y l] IH].
  - reflexivity.
  - cbn. now rewrite append_empty.
  - change (joinChunks sep (map VStr (x :: y :: l)))
      with (Lit x :: Lit sep :: joinChunks sep (map VStr (y :: l))).
    cbn [flatten]. rewrite IH. reflexivity.
Qed.

Lemma planCard_isSome (plan : value) :
  isSome (planCard plan) = drawablePlan plan.
Proof.
  unfold drawablePlan.
  destruct (nullish plan) eqn:Hn.
  { unfold planCard, oread. now rewrite (get_nullish _ "id" Hn). }
  unfold planCard, oread, obind, okey, ointerpolate, odate.
  rewrite !(get_optGet _ _ Hn). cbn [negb andb].
  destruct (convertible (optGet plan "id")); [|reflexivity].
  destruct (convertible (optGet plan "status")); [|reflexivity].
  cbn [andb].
  destruct (optGet plan "objectives") as [| | | | |items|];
    cbn [objectivesText isSome andb]; try reflexivity;
    try (destruct (forallb convertible items); cbn [andb]; try reflexivity);
    now destruct (convertible (optGet plan "timestamp")).
Qed.

(** X14: [renderAttackEngine] throws exactly when attackPlans is not an
    array or holds a plan it cannot draw: one that is [null] or
    [undefined], or whose [id] (the key of the card), [status] (part of
    a class name) or [timestamp] (given to [new Date]) cannot be
    converted to a string, or whose [objectives] is neither absent nor
    an array of values that [join] can convert. *)
Theorem attack_engine_renders_iff (s : State) :
  isSome (renderAttackEngine s) =
  match attackPlans s with
  | VArr plans => forallb drawablePlan plans
  | _ => false
  end.
Proof.
  unfold renderAttackEngine, obind, arrayMap.
  destruct (attackPlans s) as [| | | | |plans|]; cbn; try reflexivity.
  rewrite <- (mapM_isSome planCard _ plans planCard_isSome).
  now destruct (mapM planCard plans).
Qed.

Lemma planCard_facts (plan : value) (y : node) :
  planCard plan = Some y ->
  (forall c, In c ["app-main"; "active"; "loading"; "error"] -> byClass c y = []) /\
  byClass "plan-card" y = [y] /\
  byClass "plan-details" y =
    [el "div" "plan-details"
       [Elem "p" []
          [Elem "strong" [] [Text "Target:"]; Text " ";
           Expr (or_else (optGet (optGet plan "target") "name") (VStr "Unknown"))];
        Elem "p" []
          [Elem "strong" [] [Text "Objectives:"]; Text " ";
           match optGet plan "objectives" with
           | VArr items => Str (joinChunks ", " items)
           | _ => Expr VUndefined
           end];
        Elem "p" []
          [Elem "strong" [] [Text "Created:"]; Text " ";
           LocaleDate (optGet plan "timestamp")]]] /\
  buttons y = [] /\
  keyOf y = Some (optGet plan "id").
Proof.
  intros H. unfold planCard in H. reads H. found_reads.
  match goal with
  | Hj : objectivesText ?objectives = Some ?joined |- _ =>
      assert (Hn : joined = match objectives with
                            | VArr items => Str (joinChunks ", " items)
                            | _ => Expr VUndefined
                            end)
        by (destruct objectives as [| | | | |items|]; cbn in Hj;
            try discriminate Hj;
            try (destruct (forallb convertible items); try discriminate Hj);
            now injection Hj as <-);
      subst joined; clear Hj;
      split; [|repeat split; now destruct objectives];
      intros c Hc; cbn [In] in Hc;
      repeat (destruct Hc as [<-|Hc]; [now destruct objectives|]);
      contradiction
  end.
Qed.

(** X15: The attack view, when it renders, shows one card for each plan, in
    order and keyed by [id]; a card names the target, or [Unknown] when
    the plan has no target or the target no name, and lists the
    objectives joined by a comma and a space (nothing when the plan has
    none); the view offers the "Create Attack Plan" and "Test Chatbot"
    buttons and nothing else to click. *)
Theorem attack_engine_shows_every_plan
        (s : State) (plans : list value) (tree : node) :
  attackPlans s = VArr plans ->
  renderAttackEngine s = Some tree ->
  map keyOf (byClass "plan-card" tree) =
    map (fun plan => Some (optGet plan "id")) plans /\
  byClass "plan-details" tree =
    map (fun plan =>
           el "div" "plan-details"
             [Elem "p" []
                [Elem "strong" [] [Text "Target:"]; Text " ";
                 Expr (or_else (optGet (optGet plan "target") "name")
                               (VStr "Unknown"))];
              Elem "p" []
                [Elem "strong" [] [Text "Objectives:"]; Text " ";
                 match optGet plan "objectives" with
                 | VArr items => Str (joinChunks ", " items)
                 | _ => Expr VUndefined
                 end];
              Elem "p" []
                [Elem "strong" [] [Text "Created:"]; Text " ";
                 LocaleDate (optGet plan "timestamp")]]) plans /\
  buttons tree = [CreateAttackPlanPrompts; TestChatbotInput].
Proof.
  intros Hp H. unfold renderAttackEngine, obind, arrayMap in H.
  rewrite Hp in H.
  destruct (mapM planCard plans) as [cards|] eqn:E; [|discriminate H].
  cbn in H. injection H as <-.
  apply mapM_Forall2 in E. clear Hp.
  cbn -[or_else optGet joinChunks]. rewrite !app_nil_r.
  repeat split.
  - induction E as [|x y l l' Hxy Hl IH]; cbn -[optGet]; [reflexivity|].
    destruct (planCard_facts _ Hxy) as (_ & Hself & _ & _ & Hk).
    rewrite Hself. cbn -[optGet]. now rewrite Hk, IH.
  - induction E as [|x y l l' Hxy Hl IH];
      cbn -[optGet or_else joinChunks]; [reflexivity|].
    destruct (planCard_facts _ Hxy) as (_ & _ & Hd & _ & _).
    rewrite Hd. cbn -[optGet or_else joinChunks]. now rewrite IH.
  - assert (Hb : flat_map buttons cards = []).
    { apply flat_map_nil. eapply Forall2_right; [|exact E].
      cbn beta. intros x y Hxy. now apply (planCard_facts _ Hxy). }
    now rewrite Hb.
Qed.

(** X16: A plan created by the "Create Attack Plan" button and returned by
    the backend with the objectives it was sent lists them as
    [Identify vulnerabilities, Test security controls]; in general the
    objectives text of a plan whose objectives are strings is their
    [String.concat] with [", "]. *)
Theorem plan_objectives_are_joined
        (plan : value) (objectives : list string) (card : node) :
  get plan "objectives" = Some (VArr (map VStr objectives)) ->
  planCard plan = Some card ->
  exists text target created,
    byClass "plan-details" card =
      [el "div" "plan-details"
         [target; Elem "p" [] [Elem "strong" [] [Text "Objectives:"]; Text " "; Str text];
          created]] /\
    flatten text = Some (String.concat ", " objectives).
Proof.
  intros Ho H. destruct (planCard_facts _ H) as (_ & _ & Hd & _).
  rewrite (@optGet_some _ _ _ Ho) in Hd.
  do 3 eexists. split; [exact Hd | apply join_strings].
Qed.

End AttackEngine.

Section SafetyLayer.

Lemma configFlag_facts (config : value) (label key : string) :
  (forall c, In c ["active"; "loading"; "error"; "safety-config"] ->
             byClass c (configFlag config label key) = []) /\
  buttons (configFlag config label key) = [].
Proof.
  unfold configFlag. split; [|reflexivity].
  intros c Hc. cbn [In] in Hc.
  repeat (destruct Hc as [<-|Hc];
          [now destruct (truthy (optGet config key))|]).
  contradiction.
Qed.

(** X17: The safety view never throws, whatever the state holds.  It always
    offers the "Emergency Stop" button and nothing else to click: the
    button does not depend on the configuration, not even on
    [emergency_stop_enabled].  The configuration panel is shown exactly
    when safetyConfig is truthy, and then its "Emergency Stop" row
    reads [Enabled] exactly when [emergency_stop_enabled] is truthy. *)
Theorem safety_layer_always_offers_emergency_stop (s : State) :
  exists tree,
    renderSafetyLayer s = Some tree /\
    buttons tree = [EmergencyStopCall] /\
    List.length (byClass "safety-config" tree) =
      (if truthy (safetyConfig s) then 1 else 0)%nat /\
    (truthy (safetyConfig s) = true ->
     nth_error (byClass "config-item" tree) 4 =
       Some (configFlag (safetyConfig s) "Emergency Stop" "emergency_stop_enabled")).
Proof.
  eexists. split; [reflexivity|]. unfold configFlag.
  destruct (truthy (safetyConfig s)).
  - repeat match goal with
           | |- context [truthy (optGet ?c ?k)] => destruct (truthy (optGet c k))
           end;
      repeat split; reflexivity.
  - repeat split; try reflexivity. intros H. discriminate H.
Qed.

End SafetyLayer.

Section Component.

Lemma arrayMap_some (v : value) (f : value -> option node) (n : node) :
  arrayMap v f = Some n ->
  exists l items, v = VArr l /\ mapM f l = Some items /\ n = Items items.
Proof.
  unfold arrayMap. intros H.
  destruct v as [| | | | |l|]; try discriminate H.
  destruct (mapM f l) as [items|] eqn:E; [|discriminate H].
  cbn in H. injection H as <-. now exists l, items.
Qed.

(** Each view offers its own buttons only and contains nothing of the
    classes of the frame around it. *)
Lemma view_facts (t : Tab) (s : State) (view : node) :
  renderTab t s = Some view ->
  buttons view = viewButtons t /\
  (forall c, In c ["app-main"; "active"; "loading"; "error"] ->
             byClass c view = []).
Proof.
  destruct t; cbn [renderTab viewButtons]; intros H.
  - unfold renderDashboard in H. reads H.
    destruct (arrayMap_some _ _ E2) as (l & items & _ & Hm & ->).
    destruct (recent_items _ Hm) as (Hq & _ & Hb & _).
    split.
    + cbn. now rewrite Hb.
    + intros c Hc. cbn [byClass el flat_map hasClass existsb].
      rewrite (Hq c) by (cbn in Hc |- *; tauto).
      cbn [In] in Hc.
      repeat (destruct Hc as [<-|Hc]; [reflexivity|]). contradiction.
  - unfold renderKnowledgeBase in H. reads H.
    destruct (arrayMap_some _ _ E) as (l & cards & _ & Hm & ->).
    apply mapM_Forall2 in Hm.
    split.
    + cbn. rewrite app_nil_r.
      assert (Hb : flat_map buttons cards = []).
      { apply flat_map_nil. eapply Forall2_right; [|exact Hm].
        cbn beta. intros x y Hxy. now apply (techniqueCard_facts _ Hxy). }
      now rewrite Hb.
    + intros c Hc.
      assert (Hq : flat_map (byClass c) cards = []).
      { apply flat_map_nil. eapply Forall2_right; [|exact Hm].
        cbn beta. intros x y Hxy. now apply (techniqueCard_facts _ Hxy). }
      cbn [byClass el flat_map hasClass existsb]. rewrite Hq.
      cbn [In] in Hc.
      repeat (destruct Hc as [<-|Hc]; [reflexivity|]). contradiction.
  - unfold renderAttackEngine in H. reads H.
    destruct (arrayMap_some _ _ E) as (l & cards & _ & Hm & ->).
    apply mapM_Forall2 in Hm.
    split.
    + cbn. rewrite app_nil_r.
      assert (Hb : flat_map buttons cards = []).
      { apply flat_map_nil. eapply Forall2_right; [|exact Hm].
        cbn beta. intros x y Hxy. now apply (planCard_facts _ Hxy). }
      now rewrite Hb.
    + intros c Hc.
      assert (Hq : flat_map (byClass c) cards = []).
      { apply flat_map_nil. eapply Forall2_right; [|exact Hm].
        cbn beta. intros x y Hxy. now apply (planCard_facts _ Hxy). }
      cbn [byClass el flat_map hasClass existsb]. rewrite Hq.
      cbn [In] in Hc.
      repeat (destruct Hc as [<-|Hc]; [reflexivity|]). contradiction.
  - unfold renderSafetyLayer in H. injection H as <-. unfold configFlag.
    split.
    + destruct (truthy (safetyConfig s)); [|reflexivity].
      now repeat match goal with
                 | |- context [truthy (optGet ?c ?k)] =>
                     destruct (truthy (optGet c k))
                 end.
    + intros c Hc. cbn [In] in Hc.
      destruct (truthy (safetyConfig s)).
      * repeat match goal with
               | |- context [truthy (optGet ?c ?k)] =>
                   destruct (truthy (optGet c k))
               end;
          repeat (destruct Hc as [<-|Hc]; [reflexivity|]); contradiction.
      * repeat (destruct Hc as [<-|Hc]; [reflexivity|]); contradiction.
Qed.

(** X18: The component renders exactly when the view of the active tab does.
    Its main area then holds that view and no other (the other three
    slots are [false]); in the navigation exactly the button of the
    active tab is marked [active]; the page offers the four navigation
    buttons and the buttons of the active view, so that "Emergency
    Stop" can only be pressed in the safety view and the "Learn" and
    "Create Attack Plan" buttons only in theirs; the loading banner is
    shown exactly while [loading] is set and the error banner exactly
    while [error] holds a non-empty text. *)
Theorem app_shows_exactly_the_active_view (s : State) (t : Tab) :
  activeTab s = tabName t ->
  isSome (App s) = isSome (renderTab t s) /\
  forall tree, App s = Some tree ->
    exists view,
      renderTab t s = Some view /\
      flat_map childrenOf (byClass "app-main" tree) =
        [if loading s then el "div" "loading" [Text "Loading..."]
         else Expr (VBool false);
         if truthy (errorValue s) then el "div" "error" [Expr (errorValue s)]
         else Expr (errorValue s)] ++
        map (fun u => if String.eqb (tabName t) (tabName u)
                      then view else Expr (VBool false))
            [dashboard; knowledge; attack; safety] /\
      flat_map buttons (byClass "active" tree) = [NavTo t] /\
      buttons tree =
        [NavTo dashboard; NavTo knowledge; NavTo attack; NavTo safety] ++
        viewButtons t /\
      List.length (byClass "loading" tree) = (if loading s then 1 else 0)%nat /\
      List.length (byClass "error" tree) =
        (if truthy (errorValue s) then 1 else 0)%nat.
Proof.
  intros Hact. unfold App, tabSlot, navButton, obind. rewrite Hact.
  destruct t; cbn [tabName];
    cbn -[renderDashboard renderKnowledgeBase renderAttackEngine
          renderSafetyLayer byClass buttons childrenOf truthy errorValue
          viewButtons];
    match goal with
    | |- context [isSome (?r s)] => destruct (r s) as [view|] eqn:Hv
    end;
    (split; [reflexivity|]); intros tree H; try discriminate H;
    injection H as <-; exists view; (split; [reflexivity|]);
    match type of Hv with
    | renderDashboard s = _ => apply (view_facts dashboard) in Hv
    | renderKnowledgeBase s = _ => apply (view_facts knowledge) in Hv
    | renderAttackEngine s = _ => apply (view_facts attack) in Hv
    | renderSafetyLayer s = _ => apply (view_facts safety) in Hv
    end;
    destruct Hv as [Hb Hq];
    cbn [byClass buttons el flat_map hasClass existsb clickOf app
         String.eqb Ascii.eqb Bool.eqb orb andb append childrenOf];
    rewrite ?Hb, ?(Hq "app-main"), ?(Hq "active"), ?(Hq "loading"),
            ?(Hq "error") by (cbn; tauto);
    destruct (loading s); destruct (truthy (errorValue s));
    cbn [byClass buttons el flat_map hasClass existsb clickOf app
         String.eqb Ascii.eqb Bool.eqb orb andb append childrenOf
         List.length viewButtons];
    rewrite ?app_nil_r;
    repeat split; reflexivity.
Qed.

End Component.

Section LoadAndShow.

Lemma initial_load_state (d1 d2 d3 t a c : value) :
  get d1 "techniques" = Some t ->
  get d2 "attack_plans" = Some a ->
  get d3 "safety_config" = Some c ->
  steps initialPage
        [User Mount; Settle 0 [Fulfilled d1; Fulfilled d2; Fulfilled d3]] =
  mkPage (mkState "dashboard" (or_else t (VArr [])) (or_else a (VArr []))
                  (or_else c VNull) false None)
         []
         (SetLoading true :: map Dispatch refreshRequests ++
          [SetTechniques (or_else t (VArr []));
           SetAttackPlans (or_else a (VArr []));
           SetSafetyConfig (or_else c VNull); SetLoading false]).
Proof.
  intros Ht Ha Hc. unfold steps. cbn -[get or_else].
  unfold read. rewrite Ht. cbn -[get or_else].
  rewrite Ha. cbn -[get or_else]. rewrite Hc. reflexivity.
Qed.

(** X19: The first screen: when the three fetches of the mount effect are
    fulfilled with an array of techniques, an array of plans and a
    configuration object, the component throws if one of the first five
    techniques cannot be drawn (it is [null] or [undefined], or its
    [id] or [category] cannot be converted to a string); and whenever
    the component returns its tree, that tree has no loading and no
    error banner, the two array lengths in the counters of the
    dashboard, and [Active] exactly when the configuration has a truthy
    [emergency_stop_enabled]. *)
Theorem initial_load_fills_the_dashboard
        (d1 d2 d3 : value) (ts ps : list value) (cfg : list (string * value)) :
  get d1 "techniques" = Some (VArr ts) ->
  get d2 "attack_plans" = Some (VArr ps) ->
  get d3 "safety_config" = Some (VObj cfg) ->
  let p := steps initialPage
                 [User Mount; Settle 0 [Fulfilled d1; Fulfilled d2; Fulfilled d3]] in
  (forallb drawableEntry (firstn 5 ts) = false -> App (store p) = None) /\
  forall tree, App (store p) = Some tree ->
    byClass "stat-number" tree =
      [el "p" "stat-number" [Expr (VNum (Z.of_nat (List.length ts)))];
       el "p" "stat-number" [Expr (VNum (Z.of_nat (List.length ps)))]] /\
    byClass "stat-status" tree =
      [el "p" "stat-status"
          [Expr (VStr (if truthy (lookup "emergency_stop_enabled" cfg)
                       then "Active" else "Inactive"))];
       el "p" "stat-status" [Text "Operational"]] /\
    byClass "loading" tree = [] /\
    byClass "error" tree = [].
Proof.
  intros Ht Ha Hc p. subst p.
  rewrite (initial_load_state _ _ _ Ht Ha Hc).
  cbn [store or_else truthy].
  set (s := mkState "dashboard" (VArr ts) (VArr ps) (VObj cfg) false None).
  unfold App, tabSlot, obind.
  cbn [activeTab s String.eqb tabName Ascii.eqb Bool.eqb renderTab].
  split.
  { rewrite <- (mapM_isSome techniqueItem _ (firstn 5 ts) techniqueItem_isSome).
    unfold renderDashboard, oread, obind, arrayMap, slice.
    cbn -[firstn mapM].
    destruct (mapM techniqueItem (firstn 5 ts)); [discriminate | reflexivity]. }
  intros tree H.
  destruct (renderDashboard s) as [view|] eqn:Hv; [|discriminate H].
  cbn -[renderDashboard] in H. injection H as <-.
  destruct (@dashboard_tree s ts ps view eq_refl eq_refl Hv)
    as (items & _ & Hn & Hst & _).
  destruct (@view_facts dashboard s view Hv) as [_ Hq].
  cbn [byClass el flat_map hasClass existsb app navButton
       String.eqb Ascii.eqb Bool.eqb orb andb append].
  rewrite Hn, Hst, (Hq "loading"), (Hq "error") by (cbn; tauto).
  repeat split; reflexivity.
Qed.

(** X20: A refresh does not check what it stores: when the backend answers
    the techniques fetch with a truthy value that is not an array, the
    refresh ends as a success, with [loading] cleared and no error, but
    from then on neither the dashboard nor the knowledge view can be
    rendered. *)
Theorem unchecked_techniques_break_the_views
        (d1 d2 d3 t a c : value) :
  get d1 "techniques" = Some t ->
  get d2 "attack_plans" = Some a ->
  get d3 "safety_config" = Some c ->
  truthy t = true ->
  (forall items, t <> VArr items) ->
  let s := store (steps initialPage
                    [User Mount;
                     Settle 0 [Fulfilled d1; Fulfilled d2; Fulfilled d3]]) in
  error s = None /\
  loading s = false /\
  techniques s = t /\
  App s = None /\
  renderKnowledgeBase s = None.
Proof.
  intros Ht Ha Hc Htruthy Hnot s. subst s.
  rewrite (initial_load_state _ _ _ Ht Ha Hc).
  assert (Ho : or_else t (VArr []) = t) by (unfold or_else; now rewrite Htruthy).
  rewrite !Ho. cbn [store error loading techniques].
  repeat split.
  - unfold App, tabSlot, obind. cbn [activeTab tabName String.eqb Ascii.eqb Bool.eqb renderTab].
    assert (Hd : forall s', techniques s' = t -> renderDashboard s' = None).
    { intros s' Hs'. unfold renderDashboard, oread, obind. rewrite Hs'.
      destruct t; cbn; try reflexivity;
        try (now destruct (get (attackPlans s') "length")).
      now elim (Hnot items). }
    now rewrite Hd by reflexivity.
  - unfold renderKnowledgeBase, obind. cbn [techniques].
    destruct t; cbn; try reflexivity. now elim (Hnot items).
Qed.

End LoadAndShow.

(* ================================================================== *)
(** ** The edge cases and the views on concrete states *)
(* ================================================================== *)

Section MoreInstances.

Lemma failed_operation_instance :
  let o := TestChatbot "https://bot.test" None in
  let outs := [Fulfilled (VObj [("results", VNull)])] in
  let q := steps initialPage
                 [User Mount; User (TestChatbotButton "https://bot.test")] in
  let q2 := step q (Settle 1 outs) in
  (exists w, pendingOf o = Some w /\ nth_error (inflight q) 1 = Some w) /\
  (List.length outs = arity o /\ endsFailed o outs = true /\
   storesBeforeReadingAll o outs = false) /\
  slices (store q2) = slices (store q) /\
  error (store q2) = Some "Failed to test chatbot" /\
  loading (store q2) = false /\
  List.length (inflight q2) = 1%nat.
Proof.
  intros o outs q q2.
  split; [eexists; split; reflexivity|].
  split; [repeat split; reflexivity|].
  destruct (@failed_operation_leaves_slices q 1 o _ outs
              eq_refl eq_refl eq_refl eq_refl eq_refl)
    as (H1 & _ & H3 & H4 & H5 & _).
  subst q2. rewrite H5. repeat split; assumption.
Defined.

Lemma learn_from_url_instance :
  let data :=
    VObj [("techniques", VObj [("length", VObj [("toString", VNum 1)])])] in
  let p2 := settle initialPage (start initialPage (LearnFromUrl egnyteUrl))
                   [Fulfilled data] in
  convertible (optGet (optGet data "techniques") "length") = false /\
  error (store p2) = Some "Failed to learn from URL" /\
  inflight p2 = [].
Proof.
  intros data p2. split; [reflexivity|].
  destruct (proj2 (learn_from_url_needs_techniques_in_response
                     initialPage egnyteUrl data)) as (H1 & H2 & _).
  - right. right. reflexivity.
  - split; assumption.
Defined.

Lemma test_chatbot_instance :
  let data :=
    VObj [("results",
           VObj [("vulnerabilities_found", VArr [VStr "prompt leak"]);
                 ("test_summary", VObj [("risk_level", VStr "high")])])] in
  let p2 := settle initialPage
                   (start initialPage (TestChatbot "https://bot.test" None))
                   [Fulfilled data] in
  In (Alert [Lit "Chatbot test completed!"; Lit newline;
             Lit "Vulnerabilities found: "; Hole (VNum 1); Lit newline;
             Lit "Risk level: "; Hole (VStr "high")])
     (history p2).
Proof.
  intros data p2.
  apply (proj2 (proj2 (test_chatbot_needs_complete_results
                         initialPage "https://bot.test" None data))).
  reflexivity.
Defined.

Lemma first_to_settle_instance :
  let o1 := TestChatbot "https://bot.test" None in
  let o2 := LearnFromUrl egnyteUrl in
  let p2 := settle initialPage (launch (start initialPage o1) (body o2)) [Rejected] in
  (o1 <> EmergencyStop /\ List.length [Rejected] = arity o1) /\
  loading (store p2) = false /\
  List.length (inflight p2) = 1%nat.
Proof.
  intros o1 o2 p2.
  assert (Hne : o1 <> EmergencyStop) by discriminate.
  split; [split; [exact Hne | reflexivity]|].
  split; [|reflexivity].
  apply (first_to_settle_clears_loading initialPage o2 [Rejected] Hne eq_refl).
Defined.

Lemma dashboard_instance :
  exists tree,
    renderDashboard sampleState = Some tree /\
    List.length (byClass "technique-item" tree) = 5%nat /\
    map keyOf (byClass "technique-item" tree) =
      map (fun i => Some (VNum i)) [1; 2; 3; 4; 5]%Z.
Proof.
  eexists. split; [reflexivity|].
  destruct (@dashboard_shows_counts_and_recent_techniques sampleState _ _ _
              eq_refl eq_refl eq_refl) as (_ & _ & Hk & Hl & _).
  split; [exact Hl | exact Hk].
Defined.

Lemma knowledge_base_instance :
  exists tree,
    renderKnowledgeBase sampleState = Some tree /\
    buttons tree = [LearnFromUrlPrompt; LearnFromEgnyte] /\
    List.length (byClass "severity-badge" tree) = 7%nat.
Proof.
  eexists. split; [reflexivity|].
  destruct (@knowledge_base_shows_every_technique sampleState _ _
              eq_refl eq_refl) as (_ & Hb & Hbtn).
  split; [exact Hbtn|]. rewrite Hb. reflexivity.
Defined.

Lemma attack_engine_instance :
  exists tree,
    renderAttackEngine sampleState = Some tree /\
    map keyOf (byClass "plan-card" tree) = [Some (VNum 1)] /\
    buttons tree = [CreateAttackPlanPrompts; TestChatbotInput].
Proof.
  eexists. split; [reflexivity|].
  destruct (@attack_engine_shows_every_plan sampleState _ _
              eq_refl eq_refl) as (Hk & _ & Hbtn).
  split; [exact Hk | exact Hbtn].
Defined.

Lemma plan_objectives_instance :
  exists card text target created,
    planCard samplePlan = Some card /\
    byClass "plan-details" card =
      [el "div" "plan-details"
         [target;
          Elem "p" [] [Elem "strong" [] [Text "Objectives:"]; Text " "; Str text];
          created]] /\
    flatten text = Some "Identify vulnerabilities, Test security controls".
Proof.
  eexists.
  destruct (@plan_objectives_are_joined samplePlan
              ["Identify vulnerabilities"; "Test security controls"] _
              eq_refl eq_refl) as (text & target & created & Hd & Hf).
  exists text, target, created.
  split; [reflexivity|]. split; [exact Hd | exact Hf].
Defined.

Lemma safety_layer_instance :
  exists tree,
    renderSafetyLayer sampleState = Some tree /\
    nth_error (byClass "config-item" tree) 4 =
      Some (configFlag (safetyConfig sampleState) "Emergency Stop"
                       "emergency_stop_enabled").
Proof.
  destruct (safety_layer_always_offers_emergency_stop sampleState)
    as (tree & H1 & _ & _ & H4).
  exists tree. split; [exact H1 | apply H4; reflexivity].
Defined.

Lemma app_instance :
  activeTab sampleState = tabName dashboard /\
  isSome (App sampleState) = isSome (renderTab dashboard sampleState).
Proof.
  split; [reflexivity|].
  apply (@app_shows_exactly_the_active_view sampleState dashboard eq_refl).
Defined.

Lemma initial_load_instance :
  let technique i := sampleTechnique i VUndefined in
  let d1 := VObj [("techniques", VArr [technique 1; technique 2; technique 3]%Z)] in
  let d2 := VObj [("attack_plans", VArr [samplePlan])] in
  let d3 := VObj [("safety_config", VObj [("emergency_stop_enabled", VBool true)])] in
  let p := steps initialPage
                 [User Mount; Settle 0 [Fulfilled d1; Fulfilled d2; Fulfilled d3]] in
  exists tree,
    App (store p) = Some tree /\
    byClass "stat-number" tree =
      [el "p" "stat-number" [Expr (VNum 3)];
       el "p" "stat-number" [Expr (VNum 1)]] /\
    byClass "stat-status" tree =
      [el "p" "stat-status" [Expr (VStr "Active")];
       el "p" "stat-status" [Text "Operational"]].
Proof.
  intros technique d1 d2 d3 p.
  eexists. split; [reflexivity|].
  destruct (@initial_load_fills_the_dashboard d1 d2 d3 _ _ _
              eq_refl eq_refl eq_refl) as [_ H].
  destruct (H _ eq_refl) as (Hn & Hs & _).
  split; [exact Hn | exact Hs].
Defined.

Lemma unchecked_techniques_instance :
  let d1 := VObj [("techniques", VStr "none")] in
  let d2 := VObj [("attack_plans", VArr [])] in
  let d3 := VObj [("safety_config", VNull)] in
  let s := store (steps initialPage
                    [User Mount;
                     Settle 0 [Fulfilled d1; Fulfilled d2; Fulfilled d3]]) in
  (truthy (VStr "none") = true /\ forall items, VStr "none" <> VArr items) /\
  error s = None /\ App s = None.
Proof.
  intros d1 d2 d3 s.
  assert (Hnot : forall items, VStr "none" <> VArr items) by discriminate.
  split; [split; [reflexivity | exact Hnot]|].
  destruct (@unchecked_techniques_break_the_views d1 d2 d3 _ _ _
              eq_refl eq_refl eq_refl eq_refl Hnot) as (He & _ & _ & Ha & _).
  split; [exact He | exact Ha].
Defined.

End MoreInstances.
